(** * brain-dump-py: the two diagnostic scripts

    A shallow embedding of [backend/debug_note_flow.mjs] and
    [backend/debug_reminder_flow.mjs].  Both scripts talk to a remote service
    through [fetch], print to the console and end the process with an exit
    code.  The embedding threads an explicit state (the network, the requests
    sent so far, standard output, standard error) through a small state and
    exception monad; what the JavaScript host provides ([fetch], [JSON.parse],
    [JSON.stringify], [encodeURIComponent], number printing) is an interface,
    [Host], the scripts are written against. *)

From Stdlib Require Import List NArith Bool String Ascii Lia.
From Stdlib Require Import Floats.SpecFloat.
From Stdlib Require DecimalN.
Import ListNotations.

Set Warnings "-register-all".

Local Open Scope N_scope.
Local Open Scope list_scope.

(** ** JavaScript strings

    A JavaScript string is a sequence of UTF-16 code units. *)

Definition jsstr := list N.

Fixpoint jsstr_eqb (a b : jsstr) : bool :=
  match a, b with
  | [], [] => true
  | x :: a', y :: b' => (x =? y) && jsstr_eqb a' b'
  | _, _ => false
  end.

(** The bytes of a source literal (UTF-8). *)
Fixpoint bytes_of (s : string) : list N :=
  match s with
  | EmptyString => []
  | String c r => N_of_ascii c :: bytes_of r
  end.

(** UTF-8 bytes to UTF-16 code units; a truncated sequence ends the string. *)
Fixpoint utf16_of_utf8 (bs : list N) : jsstr :=
  match bs with
  | [] => []
  | b :: r =>
      if b <? 128 then b :: utf16_of_utf8 r
      else if b <? 224 then
        match r with
        | c1 :: r1 =>
            N.lor (N.shiftl (N.land b 31) 6) (N.land c1 63) :: utf16_of_utf8 r1
        | _ => []
        end
      else if b <? 240 then
        match r with
        | c1 :: c2 :: r2 =>
            N.lor (N.shiftl (N.land b 15) 12)
              (N.lor (N.shiftl (N.land c1 63) 6) (N.land c2 63))
            :: utf16_of_utf8 r2
        | _ => []
        end
      else
        match r with
        | c1 :: c2 :: c3 :: r3 =>
            let cp :=
              N.lor (N.shiftl (N.land b 7) 18)
                (N.lor (N.shiftl (N.land c1 63) 12)
                   (N.lor (N.shiftl (N.land c2 63) 6) (N.land c3 63))) in
            let u := cp - 65536 in
            (55296 + N.shiftr u 10) :: (56320 + N.land u 1023)
            :: utf16_of_utf8 r3
        | _ => []
        end
  end.

(** A string literal of the source. *)
Definition lit (s : string) : jsstr := utf16_of_utf8 (bytes_of s).

(** The characters a source literal cannot hold directly. *)
Definition NL : jsstr := [10].
Definition DQUOTE : jsstr := [34].

(** [WhiteSpace] and [LineTerminator] code units, the ones
    [String.prototype.trim] strips. *)
Definition is_white_space (c : N) : bool :=
  (c =? 9) || (c =? 10) || (c =? 11) || (c =? 12) || (c =? 13) || (c =? 32)
  || (c =? 160) || (c =? 5760)
  || ((8192 <=? c) && (c <=? 8202))
  || (c =? 8232) || (c =? 8233) || (c =? 8239) || (c =? 8287)
  || (c =? 12288) || (c =? 65279).

Fixpoint trim_start (s : jsstr) : jsstr :=
  match s with
  | [] => []
  | c :: r => if is_white_space c then trim_start r else s
  end.

Definition trim (s : jsstr) : jsstr := rev (trim_start (rev (trim_start s))).

(** ["=".repeat(n)] and the like. *)
Fixpoint str_repeat (s : jsstr) (n : nat) : jsstr :=
  match n with
  | O => []
  | S k => s ++ str_repeat s k
  end.

(** Decimal digits of a non-negative integer, as a template literal prints
    it. *)
Fixpoint digits_of_uint (d : Decimal.uint) : jsstr :=
  match d with
  | Decimal.Nil => []
  | Decimal.D0 r => 48 :: digits_of_uint r
  | Decimal.D1 r => 49 :: digits_of_uint r
  | Decimal.D2 r => 50 :: digits_of_uint r
  | Decimal.D3 r => 51 :: digits_of_uint r
  | Decimal.D4 r => 52 :: digits_of_uint r
  | Decimal.D5 r => 53 :: digits_of_uint r
  | Decimal.D6 r => 54 :: digits_of_uint r
  | Decimal.D7 r => 55 :: digits_of_uint r
  | Decimal.D8 r => 56 :: digits_of_uint r
  | Decimal.D9 r => 57 :: digits_of_uint r
  end.

Definition int_to_string (n : N) : jsstr := digits_of_uint (N.to_uint n).

(** Reading decimal digits back: the inverse of [digits_of_uint], and the
    number a text of digits denotes. *)
Fixpoint uint_of_digits (s : jsstr) : option Decimal.uint :=
  match s with
  | [] => Some Decimal.Nil
  | c :: r =>
      match uint_of_digits r with
      | None => None
      | Some d =>
          if c =? 48 then Some (Decimal.D0 d)
          else if c =? 49 then Some (Decimal.D1 d)
          else if c =? 50 then Some (Decimal.D2 d)
          else if c =? 51 then Some (Decimal.D3 d)
          else if c =? 52 then Some (Decimal.D4 d)
          else if c =? 53 then Some (Decimal.D5 d)
          else if c =? 54 then Some (Decimal.D6 d)
          else if c =? 55 then Some (Decimal.D7 d)
          else if c =? 56 then Some (Decimal.D8 d)
          else if c =? 57 then Some (Decimal.D9 d)
          else None
      end
  end.

Definition decimal_value (s : jsstr) : option N :=
  match uint_of_digits s with
  | Some d => Some (N.of_uint d)
  | None => None
  end.

(** [sub] occurs in [s] as a contiguous run of code units. *)
Definition contains (s sub : jsstr) : Prop :=
  exists pre post, s = pre ++ sub ++ post.

(** ** JavaScript values

    The values [JSON.parse] produces, and [undefined], which reading a
    missing property yields.  An object keeps its properties in insertion
    order, the order [JSON.stringify] and [console.log] print them in; a
    parsed object has each key once. *)

Inductive value : Type :=
| VUndefined
| VNull
| VBool (b : bool)
| VNum (x : spec_float)
| VStr (s : jsstr)
| VArr (xs : list value)
| VObj (props : list (jsstr * value)).

Fixpoint lookup (k : jsstr) (props : list (jsstr * value)) : option value :=
  match props with
  | [] => None
  | (k', v) :: r => if jsstr_eqb k k' then Some v else lookup k r
  end.

(** [typeof v]. *)
Definition typeof (v : value) : jsstr :=
  match v with
  | VUndefined => lit "undefined"
  | VNull => lit "object"
  | VBool _ => lit "boolean"
  | VNum _ => lit "number"
  | VStr _ => lit "string"
  | VArr _ | VObj _ => lit "object"
  end.

(** [ToBoolean v], the test an [if] applies. *)
Definition truthy (v : value) : bool :=
  match v with
  | VUndefined | VNull => false
  | VBool b => b
  | VNum (S754_zero _) | VNum S754_nan => false
  | VNum _ => true
  | VStr s => negb (jsstr_eqb s [])
  | VArr _ | VObj _ => true
  end.

(** [v === "literal"]: strict equality with a string. *)
Definition strict_eq_str (v : value) (s : jsstr) : bool :=
  match v with
  | VStr t => jsstr_eqb t s
  | _ => false
  end.

(** [v !== null]. *)
Definition not_null (v : value) : bool :=
  match v with
  | VNull => false
  | _ => true
  end.

(** The value of [v.k] where [v] is neither [null] nor [undefined].  The
    scripts read only [status], [intent], [message], [registration_url],
    [reminder_title], [reminder_time], [reminder_date] and
    [clarification_for]; no built-in prototype defines any of them, so on a
    primitive or an array the read gives [undefined] and on an object it is
    the object's own property. *)
Definition get (v : value) (k : jsstr) : value :=
  match v with
  | VObj props =>
      match lookup k props with
      | Some x => x
      | None => VUndefined
      end
  | _ => VUndefined
  end.

(** [v?.k]. *)
Definition get_opt (v : value) (k : jsstr) : value :=
  match v with
  | VUndefined | VNull => VUndefined
  | _ => get v k
  end.

(** [k in v] for an object or array [v], at the same property names. *)
Definition has_property (k : jsstr) (v : value) : bool :=
  match v with
  | VObj props =>
      match lookup k props with
      | Some _ => true
      | None => false
      end
  | _ => false
  end.

(** [{...o, k: v}]: an existing key keeps its place and takes the new value,
    a new key is appended. *)
Fixpoint assign {V : Type} (o : list (jsstr * V)) (k : jsstr) (v : V)
  : list (jsstr * V) :=
  match o with
  | [] => [(k, v)]
  | (k', v') :: r =>
      if jsstr_eqb k k' then (k', v) :: r else (k', v') :: assign r k v
  end.

(** [{...o, ...extra}]. *)
Definition spread {V : Type} (o extra : list (jsstr * V)) : list (jsstr * V) :=
  fold_left (fun acc kv => assign acc (fst kv) (snd kv)) extra o.

(** ** Errors and the host *)

(** A thrown [Error] or [TypeError], with its [message]. *)
Inductive exn : Type :=
| Error (message : jsstr)
| TypeError (message : jsstr).

Definition message (e : exn) : jsstr :=
  match e with
  | Error m | TypeError m => m
  end.

(** What [fetch] is called with: the URL and the init object. *)
Record request : Type := mkRequest {
  req_url : jsstr;
  req_method : option jsstr;
  req_headers : list (jsstr * jsstr);
  req_body : option jsstr
}.

(** The part of a [Response] the scripts read: [res.status] and the text
    [res.text()] resolves to. *)
Record response : Type := mkResponse {
  res_status : N;
  res_text : jsstr
}.

(** [res.ok]: the status is in the range 200-299. *)
Definition res_ok (r : response) : bool :=
  (200 <=? res_status r) && (res_status r <=? 299).

(** The JavaScript host.  [fetch] either rejects or resolves to a response
    and moves the network to its next state; [JSON_parse] is [None] where
    [JSON.parse] throws; the second argument of [JSON_stringify] is the
    indentation (0 when the call gives none). *)
Class Host : Type := {
  world : Type;
  fetch : request -> world -> (exn + response) * world;
  JSON_parse : jsstr -> option value;
  JSON_stringify : value -> N -> jsstr;
  encodeURIComponent : jsstr -> jsstr;
  Number_toString : spec_float -> jsstr
}.

(** One argument of a [console.log] or [console.error] call. *)
Inductive arg : Type :=
| AStr (s : jsstr)
| AInt (n : N)
| ABool (b : bool)
| AVal (v : value).

(** A computation either returns a value or throws. *)
Inductive outcome (A : Type) : Type :=
| Ret (a : A)
| Throw (e : exn).
Arguments Ret {A} a.
Arguments Throw {A} e.

Section Runtime.
Context {H : Host}.

(** The text of a primitive value. *)
Definition primitive_text (v : value) : jsstr :=
  match v with
  | VUndefined => lit "undefined"
  | VNull => lit "null"
  | VBool true => lit "true"
  | VBool false => lit "false"
  | VNum x => Number_toString x
  | VStr s => s
  | VArr _ | VObj _ => []
  end.

(** [ToString v], what [+] and template literals apply to a value; [None]
    where the conversion throws.  A parsed object is converted by the
    [toString] it inherits, unless it has a key [toString] of its own: the
    value of that key is no function, [valueOf] gives back the object, and
    the conversion is a [TypeError].  An array joins the texts of its
    elements, [null] counting as the empty text, and fails where one of them
    does. *)
Fixpoint ToString (v : value) : option jsstr :=
  match v with
  | VArr xs =>
      let element x :=
        match x with
        | VUndefined | VNull => Some []
        | _ => ToString x
        end in
      (fix join (l : list value) : option jsstr :=
         match l with
         | [] => Some []
         | [x] => element x
         | x :: r =>
             match element x, join r with
             | Some a, Some b => Some (a ++ lit "," ++ b)
             | _, _ => None
             end
         end) xs
  | VObj props =>
      match lookup (lit "toString") props with
      | Some _ => None
      | None => Some (lit "[object Object]")
      end
  | _ => Some (primitive_text v)
  end.

(** The text of [v] where the conversion succeeds. *)
Definition text_of (v : value) : jsstr :=
  match ToString v with
  | Some t => t
  | None => []
  end.

(** The state a run threads: the network, the calls made to [fetch] (oldest
    first), and the lines written to standard output and standard error. *)
Record state : Type := mkState {
  net : world;
  requests : list request;
  stdout : list (list arg);
  stderr : list (list arg)
}.

Definition init (w : world) : state := mkState w [] [] [].

(** A computation runs from a state and leaves one. *)
Definition M (A : Type) : Type := state -> outcome A * state.

Definition ret {A : Type} (a : A) : M A := fun s => (Ret a, s).

Definition throw {A : Type} (e : exn) : M A := fun s => (Throw e, s).

Definition bind {A B : Type} (m : M A) (k : A -> M B) : M B :=
  fun s =>
    match m s with
    | (Ret a, s') => k a s'
    | (Throw e, s') => (Throw e, s')
    end.

Definition console_log (line : list arg) : M unit :=
  fun s => (Ret tt, mkState (net s) (requests s) (stdout s ++ [line]) (stderr s)).

Definition console_error (line : list arg) : M unit :=
  fun s => (Ret tt, mkState (net s) (requests s) (stdout s) (stderr s ++ [line])).

(** [await fetch(url, init)]. *)
Definition do_fetch (rq : request) : M response :=
  fun s =>
    let (r, w) := fetch rq (net s) in
    let s' := mkState w (requests s ++ [rq]) (stdout s) (stderr s) in
    match r with
    | inl e => (Throw e, s')
    | inr res => (Ret res, s')
    end.

(** [v.k], which throws on [null] and [undefined]. *)
Definition prop (v : value) (k : jsstr) : M value :=
  match v with
  | VUndefined | VNull =>
      throw (TypeError (lit "Cannot read properties of " ++ primitive_text v
                        ++ lit " (reading '" ++ k ++ lit "')"))
  | _ => ret (get v k)
  end.

(** [k in v], which throws when [v] is not an object. *)
Definition js_in (k : jsstr) (v : value) : M bool :=
  match v with
  | VArr _ | VObj _ => ret (has_property k v)
  | _ =>
      throw (TypeError (lit "Cannot use 'in' operator to search for '" ++ k
                        ++ lit "' in " ++ primitive_text v))
  end.

(** The error of a conversion to a primitive that fails. *)
Definition conversion_error : exn :=
  TypeError (lit "Cannot convert object to primitive value").

(** [ToString v] as a step of a run: the text, or the [TypeError]. *)
Definition to_string (v : value) : M jsstr :=
  match ToString v with
  | Some t => ret t
  | None => throw conversion_error
  end.

(** [v.trim()]. *)
Definition call_trim (v : value) : M jsstr :=
  match v with
  | VStr s => ret (trim s)
  | VUndefined | VNull =>
      throw (TypeError (lit "Cannot read properties of " ++ primitive_text v
                        ++ lit " (reading 'trim')"))
  | _ => throw (TypeError (lit "bd.json.message.trim is not a function"))
  end.

(** How a top-level promise chain ends: the exit code of the process and the
    state it leaves. *)
Record result : Type := mkResult {
  exit_code : N;
  final : state
}.

End Runtime.

Declare Scope js_scope.
Delimit Scope js_scope with js.
Notation "x <- m ;; k" := (bind m (fun x => k))
  (at level 61, m at next level, right associativity) : js_scope.
Notation "m ;; k" := (bind m (fun _ => k))
  (at level 61, right associativity) : js_scope.
Local Open Scope js_scope.

(** The second argument of [getJson]: the init object the caller passes. *)
Record options : Type := mkOptions {
  opt_method : option jsstr;
  opt_headers : option (list (jsstr * jsstr));
  opt_body : option jsstr
}.

(** What [getJson] returns: [{ status, ok, json }]. *)
Record fetched : Type := mkFetched {
  status : N;
  ok : bool;
  json : value
}.

(** The call both [getJson] functions make:
    [fetch(url, { ...options, headers: { "Content-Type": "application/json",
    ...(options.headers || {}) } })]. *)
Definition fetch_init (url : jsstr) (options : options) : request :=
  mkRequest url (opt_method options)
    (spread [(lit "Content-Type", lit "application/json")]
       (match opt_headers options with
        | Some h => h
        | None => []
        end))
    (opt_body options).

(** ** backend/debug_note_flow.mjs *)

Module NoteFlow.
Section Script.
Context {H : Host}.

Definition BASE_URL : jsstr := lit "https://brain-dump-py.onrender.com".
Definition TECHNICAL_ID : jsstr := lit "Daniel_iPhone".
Definition NOTE_TEXT : jsstr := lit "פתק עם רעיון לפרויקט חדש".

Definition assert (cond : bool) (msg : jsstr) : M unit :=
  if cond then ret tt else throw (Error (lit "ASSERT FAILED: " ++ msg)).

Definition getJson (url : jsstr) (options : options) : M fetched :=
  res <- do_fetch (fetch_init url options);;
  let text := res_text res in
  match JSON_parse text with
  | Some json => ret (mkFetched (res_status res) (res_ok res) json)
  | None =>
      throw (Error (lit "Non-JSON response from " ++ url ++ NL
                    ++ lit "Status: " ++ int_to_string (res_status res) ++ NL
                    ++ lit "Body:" ++ NL ++ text))
  end.

(** The constants [verifyUrl], [postUrl] and [body] of the run, and the two
    calls to [fetch] it makes with them. *)
Definition verifyUrl : jsstr :=
  BASE_URL ++ lit "/verify-user?user_id=" ++ encodeURIComponent TECHNICAL_ID.

Definition postUrl : jsstr := BASE_URL ++ lit "/brain-dump".

Definition body : value :=
  VObj [(lit "user_id", VStr TECHNICAL_ID); (lit "text", VStr NOTE_TEXT)].

Definition verify_request : request :=
  fetch_init verifyUrl (mkOptions (Some (lit "GET")) None None).

Definition post_request : request :=
  fetch_init postUrl
    (mkOptions (Some (lit "POST")) None (Some (JSON_stringify body 0))).

(** Step 3 of the run (lines 64-84): the note contract, checked on the parsed
    body [bd.json]. *)
Definition validate_note_contract (bd_json : value) : M unit :=
  console_log [AStr (NL ++ lit "=== 3) VALIDATE NOTE CONTRACT ===")];;
  assert (jsstr_eqb (typeof bd_json) (lit "object") && not_null bd_json)
    (lit "Response must be an object");;
  has_status <- js_in (lit "status") bd_json;;
  assert has_status (lit "Missing 'status'");;
  has_intent <- js_in (lit "intent") bd_json;;
  assert has_intent (lit "Missing 'intent'");;
  has_message <- js_in (lit "message") bd_json;;
  assert has_message (lit "Missing 'message'");;
  st <- prop bd_json (lit "status");;
  console_log [AStr (lit "status:"); AVal st];;
  intent <- prop bd_json (lit "intent");;
  console_log [AStr (lit "intent:"); AVal intent];;
  msg <- prop bd_json (lit "message");;
  console_log [AStr (lit "message (type):"); AStr (typeof msg)];;
  msg <- prop bd_json (lit "message");;
  text <- to_string msg;;
  console_log [AStr (lit "message (value):" ++ NL ++ text)];;
  intent <- prop bd_json (lit "intent");;
  if strict_eq_str intent (lit "note") then
    st <- prop bd_json (lit "status");;
    assert (strict_eq_str st (lit "SUCCESS"))
      (lit "For note, status must be SUCCESS");;
    msg <- prop bd_json (lit "message");;
    assert (jsstr_eqb (typeof msg) (lit "string"))
      (lit "For note, message must be a string");;
    msg <- prop bd_json (lit "message");;
    trimmed <- call_trim msg;;
    assert (0 <? N.of_nat (List.length trimmed))
      (lit "For note, message must not be empty");;
    console_log
      [AStr (NL ++ lit "✅ NOTE CONTRACT OK. This is exactly what the Shortcut should append.")]
  else
    console_log
      [AStr (NL ++ lit "ℹ️ intent is not 'note' for this input. Try different NOTE_TEXT.")].

(** The body of the top-level async function (lines 33-85). *)
Definition main : M unit :=
  console_log [AStr (lit "=== 1) VERIFY USER ===")];;
  verify <- getJson verifyUrl (mkOptions (Some (lit "GET")) None None);;
  console_log [AStr (lit "HTTP:"); AInt (status verify);
               AStr (lit "OK:"); ABool (ok verify)];;
  console_log [AStr (lit "JSON:"); AVal (json verify)];;
  if truthy (get_opt (json verify) (lit "registration_url")) then
    console_log [AStr (NL ++ lit "User needs registration. registration_url:")];;
    url <- prop (json verify) (lit "registration_url");;
    console_log [AVal url];;
    console_log [AStr (lit "Stop here (this matches the shortcut behavior).")];;
    ret tt
  else
    console_log [AStr (NL ++ lit "=== 2) BRAIN DUMP POST ===")];;
    bd <- getJson postUrl
            (mkOptions (Some (lit "POST")) None (Some (JSON_stringify body 0)));;
    console_log [AStr (lit "HTTP:"); AInt (status bd);
                 AStr (lit "OK:"); ABool (ok bd)];;
    console_log [AStr (lit "JSON:"); AVal (json bd)];;
    validate_note_contract (json bd).

(** The whole script: [main] with its [catch] handler (lines 85-88), run
    against the network [w]. *)
Definition script (w : world) : result :=
  match main (init w) with
  | (Ret _, s) => mkResult 0 s
  | (Throw e, s) =>
      mkResult 1
        (snd (console_error [AStr (NL ++ lit "❌ ERROR:"); AStr (message e)] s))
  end.

End Script.
End NoteFlow.

(** ** backend/debug_reminder_flow.mjs *)

Module ReminderFlow.
Section Script.
Context {H : Host}.

Definition BASE_URL : jsstr := lit "https://brain-dump-py.onrender.com".
Definition TECHNICAL_ID : jsstr := lit "Daniel_iPhone".

Definition TEST_WITH_TIME : jsstr := lit "תזכיר לי מחר בשעה 5 אחה״צ להתקשר לאמא".
Definition TEST_WITHOUT_TIME : jsstr := lit "תזכיר לי להתקשר לאמא".

Definition getJson (url : jsstr) (options : options) : M fetched :=
  res <- do_fetch (fetch_init url options);;
  let text := res_text res in
  match JSON_parse text with
  | Some json => ret (mkFetched (res_status res) (res_ok res) json)
  | None =>
      throw (Error (lit "Non-JSON response from " ++ url ++ NL
                    ++ lit "Status: " ++ int_to_string (res_status res) ++ NL
                    ++ lit "Body:" ++ NL ++ text))
  end.

(** The constants [postUrl] and [body] of [testReminder], and the call to
    [fetch] it makes for [text]. *)
Definition postUrl : jsstr := BASE_URL ++ lit "/brain-dump".

Definition body (text : jsstr) : value :=
  VObj [(lit "user_id", VStr TECHNICAL_ID); (lit "text", VStr text)].

Definition post_request (text : jsstr) : request :=
  fetch_init postUrl
    (mkOptions (Some (lit "POST")) None (Some (JSON_stringify (body text) 0))).

(** The second half of [testReminder] (lines 53-77): the reminder contract,
    on the parsed body [bd.json]. *)
Definition validate_reminder_contract (bd_json : value) : M unit :=
  console_log [AStr (NL ++ lit "--- CONTRACT VALIDATION ---")];;
  intent <- prop bd_json (lit "intent");;
  if negb (strict_eq_str intent (lit "reminder")) then
    intent <- prop bd_json (lit "intent");;
    console_log [AStr (lit "⚠️  Intent is not 'reminder':"); AVal intent];;
    console_log [AStr (lit "(Server may need deployment for new code)")];;
    ret tt
  else
    intent <- prop bd_json (lit "intent");;
    console_log [AStr (lit "✅ intent:"); AVal intent];;
    st <- prop bd_json (lit "status");;
    console_log [AStr (lit "✅ status:"); AVal st];;
    msg <- prop bd_json (lit "message");;
    console_log [AStr (lit "✅ message:"); AVal msg];;
    title <- prop bd_json (lit "reminder_title");;
    console_log [AStr (lit "✅ reminder_title:"); AVal title];;
    time <- prop bd_json (lit "reminder_time");;
    console_log [AStr (lit "✅ reminder_time:"); AVal time;
                 AStr (lit "(HH:MM format)")];;
    date <- prop bd_json (lit "reminder_date");;
    console_log [AStr (lit "✅ reminder_date:"); AVal date;
                 AStr (lit "(YYYY-MM-DD format)")];;
    st <- prop bd_json (lit "status");;
    if strict_eq_str st (lit "NEEDS_CLARIFICATION") then
      clar <- prop bd_json (lit "clarification_for");;
      console_log [AStr (lit "✅ clarification_for:"); AVal clar];;
      console_log [AStr (NL ++ lit "📱 Shortcut should ASK USER for time")]
    else
      st <- prop bd_json (lit "status");;
      if strict_eq_str st (lit "SUCCESS") then
        console_log [AStr (NL ++ lit "📱 Shortcut should CREATE REMINDER with:")];;
        title <- prop bd_json (lit "reminder_title");;
        console_log [AStr (lit "   Title:"); AVal title];;
        time <- prop bd_json (lit "reminder_time");;
        console_log [AStr (lit "   Time:"); AVal time];;
        date <- prop bd_json (lit "reminder_date");;
        console_log [AStr (lit "   Date:"); AVal date]
      else ret tt.

Definition testReminder (text description : jsstr) : M unit :=
  console_log [AStr (NL ++ str_repeat (lit "=") 60)];;
  console_log [AStr (lit "TEST: " ++ description)];;
  console_log [AStr (lit "TEXT: " ++ DQUOTE ++ text ++ DQUOTE)];;
  console_log [AStr (str_repeat (lit "=") 60)];;
  bd <- getJson postUrl
          (mkOptions (Some (lit "POST")) None
             (Some (JSON_stringify (body text) 0)));;
  console_log [AStr (lit "HTTP:"); AInt (status bd);
               AStr (lit "OK:"); ABool (ok bd)];;
  console_log [AStr (NL ++ lit "JSON Response:")];;
  console_log [AStr (JSON_stringify (json bd) 2)];;
  validate_reminder_contract (json bd).

(** The body of the top-level async function (lines 80-99). *)
Definition main : M unit :=
  console_log [AStr (lit "🔔 REMINDER FLOW DEBUG SCRIPT" ++ NL)];;
  console_log [AStr (lit "Expected JSON format:")];;
  console_log
    [AVal (VObj
       [(lit "status", VStr (lit "SUCCESS | NEEDS_CLARIFICATION"));
        (lit "intent", VStr (lit "reminder"));
        (lit "message", VStr (lit "הודעה למשתמש"));
        (lit "reminder_title", VStr (lit "כותרת התזכורת"));
        (lit "reminder_time", VStr (lit "HH:MM (e.g., 17:00)"));
        (lit "reminder_date", VStr (lit "YYYY-MM-DD (e.g., 2026-02-06)"));
        (lit "clarification_for", VStr (lit "time (when missing)"))])];;
  testReminder TEST_WITHOUT_TIME (lit "Without time → NEEDS_CLARIFICATION");;
  testReminder TEST_WITH_TIME (lit "With time → SUCCESS").

(** The whole script: [main] with its [catch] handler (lines 99-102), run
    against the network [w]. *)
Definition script (w : world) : result :=
  match main (init w) with
  | (Ret _, s) => mkResult 0 s
  | (Throw e, s) =>
      mkResult 1
        (snd (console_error [AStr (NL ++ lit "❌ ERROR:"); AStr (message e)] s))
  end.

End Script.
End ReminderFlow.

(** ** What a computation reports *)

Section Reports.
Context {H : Host}.

(** [s] with [lines] appended to standard output and nothing else changed. *)
Definition log_lines (s : state) (lines : list (list arg)) : state :=
  mkState (net s) (requests s) (stdout s ++ lines) (stderr s).

(** From every state, [m] ends with outcome [o], prints [lines] and touches
    nothing else. *)
Definition reports {A : Type} (m : M A) (o : outcome A)
  (lines : list (list arg)) : Prop :=
  forall s, m s = (o, log_lines s lines).

(** [m] is a report of its arguments alone: outcome and printed lines do not
    depend on the state it runs from. *)
Definition stateless {A : Type} (m : M A) : Prop :=
  exists o lines, reports m o lines.

(** [s] after a call to [fetch] with [rq] that left the network as [w]. *)
Definition sent (s : state) (rq : request) (w : world) : state :=
  mkState w (requests s ++ [rq]) (stdout s) (stderr s).

(** An error raised by [assert]. *)
Definition contract_violation (e : exn) : Prop :=
  exists description, e = Error (lit "ASSERT FAILED: " ++ description).

(** [v] is a string that is not empty once trimmed. *)
Definition nonempty_message (v : value) : Prop :=
  exists m, v = VStr m /\ trim m <> [].

(** The lines the reminder validation prints for a body [j] that is neither
    [null] nor [undefined]. *)
Definition reminder_fields (j : value) : list (list arg) :=
  [[AStr (lit "✅ intent:"); AVal (get j (lit "intent"))];
   [AStr (lit "✅ status:"); AVal (get j (lit "status"))];
   [AStr (lit "✅ message:"); AVal (get j (lit "message"))];
   [AStr (lit "✅ reminder_title:"); AVal (get j (lit "reminder_title"))];
   [AStr (lit "✅ reminder_time:"); AVal (get j (lit "reminder_time"));
    AStr (lit "(HH:MM format)")];
   [AStr (lit "✅ reminder_date:"); AVal (get j (lit "reminder_date"));
    AStr (lit "(YYYY-MM-DD format)")]].

Definition reminder_mismatch (j : value) : list (list arg) :=
  [[AStr (lit "⚠️  Intent is not 'reminder':"); AVal (get j (lit "intent"))];
   [AStr (lit "(Server may need deployment for new code)")]].

Definition reminder_header : list arg :=
  [AStr (NL ++ lit "--- CONTRACT VALIDATION ---")].

Definition reminder_ask (j : value) : list (list arg) :=
  [[AStr (lit "✅ clarification_for:"); AVal (get j (lit "clarification_for"))];
   [AStr (NL ++ lit "📱 Shortcut should ASK USER for time")]].

Definition reminder_create (j : value) : list (list arg) :=
  [[AStr (NL ++ lit "📱 Shortcut should CREATE REMINDER with:")];
   [AStr (lit "   Title:"); AVal (get j (lit "reminder_title"))];
   [AStr (lit "   Time:"); AVal (get j (lit "reminder_time"))];
   [AStr (lit "   Date:"); AVal (get j (lit "reminder_date"))]].

Definition reminder_report (j : value) : list (list arg) :=
  reminder_header ::
  if strict_eq_str (get j (lit "intent")) (lit "reminder") then
    reminder_fields j ++
    if strict_eq_str (get j (lit "status")) (lit "NEEDS_CLARIFICATION") then
      reminder_ask j
    else if strict_eq_str (get j (lit "status")) (lit "SUCCESS") then
      reminder_create j
    else []
  else reminder_mismatch j.

(** The message of the error [getJson] throws on a body that is not JSON. *)
Definition non_json_message (url : jsstr) (res : response) : jsstr :=
  lit "Non-JSON response from " ++ url ++ NL
  ++ lit "Status: " ++ int_to_string (res_status res) ++ NL
  ++ lit "Body:" ++ NL ++ res_text res.

(** The line the [catch] handler of either script prints for [e]. *)
Definition error_line (e : exn) : list arg :=
  [AStr (NL ++ lit "❌ ERROR:"); AStr (message e)].

(** What the note script has printed when it reaches step 3, after the
    replies [r1] (parsed as [v]) and [r2] (parsed as [j]). *)
Definition note_preamble (r1 : response) (v : value) (r2 : response)
  (j : value) : list (list arg) :=
  [[AStr (lit "=== 1) VERIFY USER ===")];
   [AStr (lit "HTTP:"); AInt (res_status r1); AStr (lit "OK:");
    ABool (res_ok r1)];
   [AStr (lit "JSON:"); AVal v];
   [AStr (NL ++ lit "=== 2) BRAIN DUMP POST ===")];
   [AStr (lit "HTTP:"); AInt (res_status r2); AStr (lit "OK:");
    ABool (res_ok r2)];
   [AStr (lit "JSON:"); AVal j]].

(** What the note script prints when it stops at the registration link. *)
Definition note_short_circuit (r1 : response) (v : value) : list (list arg) :=
  [[AStr (lit "=== 1) VERIFY USER ===")];
   [AStr (lit "HTTP:"); AInt (res_status r1); AStr (lit "OK:");
    ABool (res_ok r1)];
   [AStr (lit "JSON:"); AVal v];
   [AStr (NL ++ lit "User needs registration. registration_url:")];
   [AVal (get v (lit "registration_url"))];
   [AStr (lit "Stop here (this matches the shortcut behavior).")]].

(** The first line of the note validation, and the lines it has printed
    once the three keys are there and the message has been converted to
    text. *)
Definition note_header : list arg :=
  [AStr (NL ++ lit "=== 3) VALIDATE NOTE CONTRACT ===")].

Definition note_fields (j : value) : list (list arg) :=
  [note_header;
   [AStr (lit "status:"); AVal (get j (lit "status"))];
   [AStr (lit "intent:"); AVal (get j (lit "intent"))];
   [AStr (lit "message (type):"); AStr (typeof (get j (lit "message")))];
   [AStr (lit "message (value):" ++ NL ++ text_of (get j (lit "message")))]].

(** What the note validation has printed when it converts the message to
    text (line 75). *)
Definition note_fields_before_text (j : value) : list (list arg) :=
  [note_header;
   [AStr (lit "status:"); AVal (get j (lit "status"))];
   [AStr (lit "intent:"); AVal (get j (lit "intent"))];
   [AStr (lit "message (type):"); AStr (typeof (get j (lit "message")))]].

(** The last line of a note validation that passes, and the line it prints
    instead when the intent is not [note]. *)
Definition note_ok_line : list arg :=
  [AStr (NL ++ lit "✅ NOTE CONTRACT OK. This is exactly what the Shortcut should append.")].

Definition note_mismatch_line : list arg :=
  [AStr (NL ++ lit "ℹ️ intent is not 'note' for this input. Try different NOTE_TEXT.")].

(** What [testReminder] prints before its request and between the reply and
    the validation. *)
Definition reminder_banner (text description : jsstr) : list (list arg) :=
  [[AStr (NL ++ str_repeat (lit "=") 60)];
   [AStr (lit "TEST: " ++ description)];
   [AStr (lit "TEXT: " ++ DQUOTE ++ text ++ DQUOTE)];
   [AStr (str_repeat (lit "=") 60)]].

Definition reminder_reply_lines (r : response) (j : value) : list (list arg) :=
  [[AStr (lit "HTTP:"); AInt (res_status r); AStr (lit "OK:");
    ABool (res_ok r)];
   [AStr (NL ++ lit "JSON Response:")];
   [AStr (JSON_stringify j 2)]].

(** [m] leaves standard error as it found it. *)
Definition keeps_stderr {A : Type} (m : M A) : Prop :=
  forall s, stderr (snd (m s)) = stderr s.

End Reports.

(** ** The response object as a cell

    The validations above take the parsed body as a value.  Here the body is
    the content of a cell, the object [bd.json] refers to, and every
    expression of the validation that mentions [bd.json] reads the cell
    anew; the state of a run is the cell together with the state of the
    process. *)

Module Cell.
Section Script.
Context {H : Host}.

Record cell_state : Type := mkCell {
  response : value;
  process : state
}.

Definition MC (A : Type) : Type := cell_state -> outcome A * cell_state.

Definition bindC {A B : Type} (m : MC A) (k : A -> MC B) : MC B :=
  fun cs =>
    match m cs with
    | (Ret a, cs') => k a cs'
    | (Throw e, cs') => (Throw e, cs')
    end.

(** A step that reads [bd.json]. *)
Definition on_response {A : Type} (f : value -> M A) : MC A :=
  fun cs =>
    let (o, s) := f (response cs) (process cs) in
    (o, mkCell (response cs) s).

(** A step that does not mention it. *)
Definition step {A : Type} (m : M A) : MC A := on_response (fun _ => m).

Local Notation "x <- m ;; k" := (bindC m (fun x => k))
  (at level 61, m at next level, right associativity).
Local Notation "m ;; k" := (bindC m (fun _ => k))
  (at level 61, right associativity).

(** Lines 64-84 of the note script. *)
Definition validate_note_contract : MC unit :=
  step (console_log [AStr (NL ++ lit "=== 3) VALIDATE NOTE CONTRACT ===")]);;
  on_response (fun bd_json =>
    NoteFlow.assert
      (jsstr_eqb (typeof bd_json) (lit "object") && not_null bd_json)
      (lit "Response must be an object"));;
  has_status <- on_response (js_in (lit "status"));;
  step (NoteFlow.assert has_status (lit "Missing 'status'"));;
  has_intent <- on_response (js_in (lit "intent"));;
  step (NoteFlow.assert has_intent (lit "Missing 'intent'"));;
  has_message <- on_response (js_in (lit "message"));;
  step (NoteFlow.assert has_message (lit "Missing 'message'"));;
  st <- on_response (fun bd_json => prop bd_json (lit "status"));;
  step (console_log [AStr (lit "status:"); AVal st]);;
  intent <- on_response (fun bd_json => prop bd_json (lit "intent"));;
  step (console_log [AStr (lit "intent:"); AVal intent]);;
  msg <- on_response (fun bd_json => prop bd_json (lit "message"));;
  step (console_log [AStr (lit "message (type):"); AStr (typeof msg)]);;
  msg <- on_response (fun bd_json => prop bd_json (lit "message"));;
  text <- step (to_string msg);;
  step (console_log [AStr (lit "message (value):" ++ NL ++ text)]);;
  intent <- on_response (fun bd_json => prop bd_json (lit "intent"));;
  if strict_eq_str intent (lit "note") then
    st <- on_response (fun bd_json => prop bd_json (lit "status"));;
    step (NoteFlow.assert (strict_eq_str st (lit "SUCCESS"))
            (lit "For note, status must be SUCCESS"));;
    msg <- on_response (fun bd_json => prop bd_json (lit "message"));;
    step (NoteFlow.assert (jsstr_eqb (typeof msg) (lit "string"))
            (lit "For note, message must be a string"));;
    msg <- on_response (fun bd_json => prop bd_json (lit "message"));;
    trimmed <- step (call_trim msg);;
    step (NoteFlow.assert (0 <? N.of_nat (List.length trimmed))
            (lit "For note, message must not be empty"));;
    step (console_log
      [AStr (NL ++ lit "✅ NOTE CONTRACT OK. This is exactly what the Shortcut should append.")])
  else
    step (console_log
      [AStr (NL ++ lit "ℹ️ intent is not 'note' for this input. Try different NOTE_TEXT.")]).

(** Lines 53-77 of the reminder script. *)
Definition validate_reminder_contract : MC unit :=
  step (console_log [AStr (NL ++ lit "--- CONTRACT VALIDATION ---")]);;
  intent <- on_response (fun bd_json => prop bd_json (lit "intent"));;
  if negb (strict_eq_str intent (lit "reminder")) then
    intent <- on_response (fun bd_json => prop bd_json (lit "intent"));;
    step (console_log [AStr (lit "⚠️  Intent is not 'reminder':"); AVal intent]);;
    step (console_log [AStr (lit "(Server may need deployment for new code)")]);;
    step (ret tt)
  else
    intent <- on_response (fun bd_json => prop bd_json (lit "intent"));;
    step (console_log [AStr (lit "✅ intent:"); AVal intent]);;
    st <- on_response (fun bd_json => prop bd_json (lit "status"));;
    step (console_log [AStr (lit "✅ status:"); AVal st]);;
    msg <- on_response (fun bd_json => prop bd_json (lit "message"));;
    step (console_log [AStr (lit "✅ message:"); AVal msg]);;
    title <- on_response (fun bd_json => prop bd_json (lit "reminder_title"));;
    step (console_log [AStr (lit "✅ reminder_title:"); AVal title]);;
    time <- on_response (fun bd_json => prop bd_json (lit "reminder_time"));;
    step (console_log [AStr (lit "✅ reminder_time:"); AVal time;
                       AStr (lit "(HH:MM format)")]);;
    date <- on_response (fun bd_json => prop bd_json (lit "reminder_date"));;
    step (console_log [AStr (lit "✅ reminder_date:"); AVal date;
                       AStr (lit "(YYYY-MM-DD format)")]);;
    st <- on_response (fun bd_json => prop bd_json (lit "status"));;
    if strict_eq_str st (lit "NEEDS_CLARIFICATION") then
      clar <- on_response (fun bd_json => prop bd_json (lit "clarification_for"));;
      step (console_log [AStr (lit "✅ clarification_for:"); AVal clar]);;
      step (console_log [AStr (NL ++ lit "📱 Shortcut should ASK USER for time")])
    else
      st <- on_response (fun bd_json => prop bd_json (lit "status"));;
      if strict_eq_str st (lit "SUCCESS") then
        step (console_log [AStr (NL ++ lit "📱 Shortcut should CREATE REMINDER with:")]);;
        title <- on_response (fun bd_json => prop bd_json (lit "reminder_title"));;
        step (console_log [AStr (lit "   Title:"); AVal title]);;
        time <- on_response (fun bd_json => prop bd_json (lit "reminder_time"));;
        step (console_log [AStr (lit "   Time:"); AVal time]);;
        date <- on_response (fun bd_json => prop bd_json (lit "reminder_date"));;
        step (console_log [AStr (lit "   Date:"); AVal date])
      else step (ret tt).

(** [mc] is the value-passing [m] run on the content of the cell, which it
    leaves as it was. *)
Definition mirrors {A : Type} (mc : MC A) (m : value -> M A) : Prop :=
  forall j s, mc (mkCell j s) = (let (o, s') := m j s in (o, mkCell j s')).

End Script.
End Cell.

(** ** A host to run the scripts on

    The network replays a script of replies; [JSON_parse] knows the bodies
    listed in [bodies], where it agrees with [JSON.parse], and rejects every
    other text; [encodeURIComponent] leaves a text of unreserved characters
    such as [TECHNICAL_ID] as it is; [JSON_stringify] and [Number_toString],
    whose output the scripts only pass on, return a fixed text. *)

Module Example.

(** JSON text written with ['] for the double quote. *)
Definition json_text (s : string) : jsstr :=
  map (fun c => if c =? 39 then 34 else c) (lit s).

Definition registered_body : jsstr := json_text "{'registered':true}".
Definition registered_json : value := VObj [(lit "registered", VBool true)].

Definition unregistered_body : jsstr :=
  json_text "{'registration_url':'https://brain-dump-py.onrender.com/register'}".
Definition unregistered_json : value :=
  VObj [(lit "registration_url",
         VStr (lit "https://brain-dump-py.onrender.com/register"))].

Definition empty_url_body : jsstr := json_text "{'registration_url':''}".
Definition empty_url_json : value := VObj [(lit "registration_url", VStr [])].

Definition note_body : jsstr :=
  json_text "{'status':'SUCCESS','intent':'note','message':'buy milk'}".
Definition note_json : value :=
  VObj [(lit "status", VStr (lit "SUCCESS")); (lit "intent", VStr (lit "note"));
        (lit "message", VStr (lit "buy milk"))].

Definition failed_note_body : jsstr :=
  json_text "{'status':'NEEDS_CLARIFICATION','intent':'note','message':''}".
Definition failed_note_json : value :=
  VObj [(lit "status", VStr (lit "NEEDS_CLARIFICATION"));
        (lit "intent", VStr (lit "note")); (lit "message", VStr [])].

Definition other_body : jsstr :=
  json_text "{'status':'SUCCESS','intent':'other','message':'hello'}".
Definition other_json : value :=
  VObj [(lit "status", VStr (lit "SUCCESS")); (lit "intent", VStr (lit "other"));
        (lit "message", VStr (lit "hello"))].

Definition no_message_body : jsstr :=
  json_text "{'status':'SUCCESS','intent':'other'}".
Definition no_message_json : value :=
  VObj [(lit "status", VStr (lit "SUCCESS")); (lit "intent", VStr (lit "other"))].

Definition bare_success_body : jsstr :=
  json_text "{'status':'SUCCESS','intent':'reminder'}".
Definition bare_success_json : value :=
  VObj [(lit "status", VStr (lit "SUCCESS")); (lit "intent", VStr (lit "reminder"))].

Definition late_success_body : jsstr :=
  json_text "{'status':'SUCCESS','intent':'reminder','reminder_time':'25:99','reminder_date':'someday'}".
Definition late_success_json : value :=
  VObj [(lit "status", VStr (lit "SUCCESS")); (lit "intent", VStr (lit "reminder"));
        (lit "reminder_time", VStr (lit "25:99"));
        (lit "reminder_date", VStr (lit "someday"))].

Definition bare_clarification_body : jsstr :=
  json_text "{'status':'NEEDS_CLARIFICATION','intent':'reminder'}".
Definition bare_clarification_json : value :=
  VObj [(lit "status", VStr (lit "NEEDS_CLARIFICATION"));
        (lit "intent", VStr (lit "reminder"))].

Definition unprintable_body : jsstr :=
  json_text "{'status':'SUCCESS','intent':'other','message':{'toString':true}}".
Definition unprintable_json : value :=
  VObj [(lit "status", VStr (lit "SUCCESS")); (lit "intent", VStr (lit "other"));
        (lit "message", VObj [(lit "toString", VBool true)])].

Definition null_body : jsstr := lit "null".
Definition true_body : jsstr := lit "true".
Definition html_body : jsstr := lit "<html>Bad Gateway</html>".

Definition bodies : list (jsstr * value) :=
  [(registered_body, registered_json);
   (unregistered_body, unregistered_json);
   (empty_url_body, empty_url_json);
   (note_body, note_json);
   (failed_note_body, failed_note_json);
   (other_body, other_json);
   (no_message_body, no_message_json);
   (bare_success_body, bare_success_json);
   (late_success_body, late_success_json);
   (bare_clarification_body, bare_clarification_json);
   (null_body, VNull);
   (true_body, VBool true);
   (unprintable_body, unprintable_json)].

Definition replay (rq : request) (w : list (exn + response))
  : (exn + response) * list (exn + response) :=
  match w with
  | r :: w' => (r, w')
  | [] => (inl (TypeError (lit "fetch failed")), [])
  end.

Definition host : Host := {|
  world := list (exn + response);
  fetch := replay;
  JSON_parse := fun text => lookup text bodies;
  JSON_stringify := fun _ _ => lit "{}";
  encodeURIComponent := fun s => s;
  Number_toString := fun _ => lit "NaN"
|}.

(** The network that answers with [replies], in this order. *)
Definition network (replies : list (exn + response)) : @world host := replies.

(** A reply with status [code] and body [text]. *)
Definition reply (code : N) (text : jsstr) : exn + response :=
  inr (mkResponse code text).

End Example.

(** ** Notions for the further properties *)

(** The value an object literal gives the key [k], for objects of any
    content (the headers of a request are one). *)
Fixpoint find_key {V : Type} (k : jsstr) (o : list (jsstr * V)) : option V :=
  match o with
  | [] => None
  | (k', v) :: r => if jsstr_eqb k k' then Some v else find_key k r
  end.

(** The headers the caller of [getJson] passes: [options.headers || {}]. *)
Definition caller_headers (o : options) : list (jsstr * jsstr) :=
  match opt_headers o with
  | Some h => h
  | None => []
  end.

(** The error of the first step of the note validation that fails on [j],
    if one does: a failed assertion, or the conversion of the message to
    text. *)
Definition note_verdict {H : Host} (j : value) : option exn :=
  let failed description := Some (Error (lit "ASSERT FAILED: " ++ description)) in
  if negb (jsstr_eqb (typeof j) (lit "object") && not_null j) then
    failed (lit "Response must be an object")
  else if negb (has_property (lit "status") j) then
    failed (lit "Missing 'status'")
  else if negb (has_property (lit "intent") j) then
    failed (lit "Missing 'intent'")
  else if negb (has_property (lit "message") j) then
    failed (lit "Missing 'message'")
  else
    match ToString (get j (lit "message")) with
    | None => Some conversion_error
    | Some _ =>
        if strict_eq_str (get j (lit "intent")) (lit "note") then
          if negb (strict_eq_str (get j (lit "status")) (lit "SUCCESS")) then
            failed (lit "For note, status must be SUCCESS")
          else
            match get j (lit "message") with
            | VStr m =>
                if 0 <? N.of_nat (List.length (trim m)) then None
                else failed (lit "For note, message must not be empty")
            | _ => failed (lit "For note, message must be a string")
            end
        else None
    end.

(** What the reminder script prints before its first test. *)
Definition reminder_intro : list (list arg) :=
  [[AStr (lit "🔔 REMINDER FLOW DEBUG SCRIPT" ++ NL)];
   [AStr (lit "Expected JSON format:")];
   [AVal (VObj
      [(lit "status", VStr (lit "SUCCESS | NEEDS_CLARIFICATION"));
       (lit "intent", VStr (lit "reminder"));
       (lit "message", VStr (lit "הודעה למשתמש"));
       (lit "reminder_title", VStr (lit "כותרת התזכורת"));
       (lit "reminder_time", VStr (lit "HH:MM (e.g., 17:00)"));
       (lit "reminder_date", VStr (lit "YYYY-MM-DD (e.g., 2026-02-06)"));
       (lit "clarification_for", VStr (lit "time (when missing)"))])]].

(** The descriptions the reminder script gives its two tests. *)
Definition WITHOUT_TIME_TEST : jsstr :=
  lit "Without time → NEEDS_CLARIFICATION".
Definition WITH_TIME_TEST : jsstr := lit "With time → SUCCESS".

(** More bodies and replies to run the scripts on. *)
Module Sample.

Definition failed_status_json : value :=
  VObj [(lit "status", VStr (lit "ERROR")); (lit "intent", VStr (lit "reminder"));
        (lit "message", VStr (lit "try again"))].

Definition blank_note_json : value :=
  VObj [(lit "status", VStr (lit "SUCCESS")); (lit "intent", VStr (lit "note"));
        (lit "message", VStr [32; 9; 160; 10])].

Definition list_json : value := VArr [VStr (lit "note")].

(** A call to [fetch] that rejects. *)
Definition unreachable : exn + response :=
  inl (TypeError (lit "fetch failed")).

(** Headers a caller might pass: its own content type and a token. *)
Definition own_headers : list (jsstr * jsstr) :=
  [(lit "Content-Type", lit "text/plain"); (lit "Authorization", lit "Bearer t")].

End Sample.

(** * Properties *)

Arguments lit : simpl never.
Arguments get : simpl never.
Arguments has_property : simpl never.
Arguments trim : simpl never.
Arguments int_to_string : simpl never.

Lemma jsstr_eqb_refl (a : jsstr) : jsstr_eqb a a = true.
Proof.
  induction a as [|x a IH]; simpl; [reflexivity|].
  now rewrite N.eqb_refl, IH.
Qed.

Lemma jsstr_eqb_eq (a b : jsstr) : jsstr_eqb a b = true <-> a = b.
Proof.
  split.
  - revert b; induction a as [|x a IH]; intros [|y b] E; simpl in E;
      try discriminate; [reflexivity|].
    apply andb_true_iff in E as [E1 E2].
    apply N.eqb_eq in E1. apply IH in E2. now subst.
  - intros ->. apply jsstr_eqb_refl.
Qed.

Lemma strict_eq_str_true (v : value) (s : jsstr) :
  strict_eq_str v s = true <-> v = VStr s.
Proof.
  destruct v; simpl; try (split; [discriminate | intros E; discriminate E]).
  rewrite jsstr_eqb_eq. split; [now intros -> | now intros [= ->]].
Qed.

Lemma has_property_object (j : value) (k : jsstr) :
  has_property k j = true -> exists props, j = VObj props.
Proof.
  destruct j; try discriminate. intros _. now eexists.
Qed.

Lemma contains_here (pre sub post : jsstr) : contains (pre ++ sub ++ post) sub.
Proof. now exists pre, post. Qed.

Section Monad_facts.
Context {H : Host}.

Lemma log_lines_nil (s : state) : log_lines s [] = s.
Proof. destruct s; unfold log_lines; simpl. now rewrite app_nil_r. Qed.

Lemma log_lines_app (s : state) (l1 l2 : list (list arg)) :
  log_lines (log_lines s l1) l2 = log_lines s (l1 ++ l2).
Proof. unfold log_lines; simpl. now rewrite app_assoc. Qed.

Lemma reports_ret {A : Type} (a : A) : reports (ret a) (Ret a) [].
Proof. intros s. unfold ret. now rewrite log_lines_nil. Qed.

Lemma reports_throw {A : Type} (e : exn) : reports (@throw _ A e) (Throw e) [].
Proof. intros s. unfold throw. now rewrite log_lines_nil. Qed.

Lemma reports_log (line : list arg) :
  reports (console_log line) (Ret tt) [line].
Proof. intros s. reflexivity. Qed.

Lemma reports_bind_ret {A B : Type} (m : M A) (k : A -> M B) a l1 o l2 :
  reports m (Ret a) l1 -> reports (k a) o l2 -> reports (bind m k) o (l1 ++ l2).
Proof.
  intros Hm Hk s. unfold bind. rewrite Hm, Hk. now rewrite log_lines_app.
Qed.

Lemma reports_bind_throw {A B : Type} (m : M A) (k : A -> M B) e l :
  reports m (Throw e) l -> reports (bind m k) (Throw e) l.
Proof. intros Hm s. unfold bind. now rewrite Hm. Qed.

Lemma stateless_bind {A B : Type} (m : M A) (k : A -> M B) :
  stateless m -> (forall a, stateless (k a)) -> stateless (bind m k).
Proof.
  intros (o & l & Hm) Hk. destruct o as [a|e].
  - destruct (Hk a) as (o' & l' & Hk'). exists o', (l ++ l').
    eapply reports_bind_ret; eassumption.
  - exists (Throw e), l. now apply reports_bind_throw.
Qed.

Lemma stateless_ret {A : Type} (a : A) : stateless (ret a).
Proof. eexists _, _. apply reports_ret. Qed.

Lemma stateless_throw {A : Type} (e : exn) : stateless (@throw _ A e).
Proof. eexists _, _. apply reports_throw. Qed.

Lemma stateless_log (line : list arg) : stateless (console_log line).
Proof. eexists _, _. apply reports_log. Qed.

Lemma stateless_prop (v : value) (k : jsstr) : stateless (prop v k).
Proof.
  destruct v; simpl; first [apply stateless_ret | apply stateless_throw].
Qed.

Lemma stateless_js_in (k : jsstr) (v : value) : stateless (js_in k v).
Proof.
  destruct v; simpl; first [apply stateless_ret | apply stateless_throw].
Qed.

Lemma stateless_call_trim (v : value) : stateless (call_trim v).
Proof.
  destruct v; simpl; first [apply stateless_ret | apply stateless_throw].
Qed.

Lemma stateless_to_string (v : value) : stateless (to_string v).
Proof.
  unfold to_string.
  destruct (ToString v); first [apply stateless_ret | apply stateless_throw].
Qed.

Lemma stateless_assert (c : bool) (msg : jsstr) :
  stateless (NoteFlow.assert c msg).
Proof.
  destruct c; simpl; first [apply stateless_ret | apply stateless_throw].
Qed.

End Monad_facts.

Create HintDb stateless.

#[local] Hint Resolve stateless_ret stateless_throw stateless_log
  stateless_prop stateless_js_in stateless_call_trim stateless_assert
  stateless_to_string : stateless.

Ltac stateless_steps :=
  repeat first
    [ solve [auto with stateless]
    | apply stateless_bind; [| intros ?]
    | match goal with |- stateless (if ?c then _ else _) => destruct c end ].

Section Validation_facts.
Context {H : Host}.

Lemma validate_note_stateless (j : value) :
  stateless (NoteFlow.validate_note_contract j).
Proof. unfold NoteFlow.validate_note_contract. stateless_steps. Qed.

Lemma validate_reminder_stateless (j : value) :
  stateless (ReminderFlow.validate_reminder_contract j).
Proof. unfold ReminderFlow.validate_reminder_contract. stateless_steps. Qed.

End Validation_facts.

(** ** Running the scripts *)

Ltac js_eval :=
  cbv [bind ret throw console_log console_error do_fetch prop js_in call_trim
       NoteFlow.assert NoteFlow.getJson ReminderFlow.getJson
       net requests stdout stderr init sent log_lines json status ok
       exit_code final fst snd negb to_string primitive_text
       conversion_error].

Ltac same_state :=
  js_eval;
  cbv [non_json_message note_preamble note_short_circuit note_fields
       note_header note_fields_before_text note_ok_line note_mismatch_line
       reminder_banner reminder_reply_lines
       reminder_header reminder_fields reminder_mismatch reminder_ask
       reminder_create error_line message];
  rewrite <- ?app_assoc; cbn [app]; reflexivity.

Lemma object_check (v : value) :
  jsstr_eqb (typeof v) (lit "object") && not_null v
  = match v with VArr _ | VObj _ => true | _ => false end.
Proof. destruct v; vm_compute; reflexivity. Qed.

Lemma string_check (v : value) :
  jsstr_eqb (typeof v) (lit "string")
  = match v with VStr _ => true | _ => false end.
Proof. destruct v; vm_compute; reflexivity. Qed.

Lemma get_has_property (j : value) (k s : jsstr) :
  get j k = VStr s -> has_property k j = true.
Proof.
  destruct j; try discriminate.
  unfold has_property, get. now destruct (lookup k props).
Qed.

Lemma length_positive (s : jsstr) :
  (0 <? N.of_nat (List.length s)) = true <-> s <> [].
Proof.
  destruct s as [|c r].
  - simpl. split; [discriminate | congruence].
  - split; [discriminate | intros _]. apply N.ltb_lt. simpl List.length. lia.
Qed.

Section Script_facts.
Context {H : Host}.

Lemma validate_reminder_reports (j : value) :
  j <> VNull -> j <> VUndefined ->
  reports (ReminderFlow.validate_reminder_contract j) (Ret tt)
    (reminder_report j).
Proof.
  intros N1 N2 s. unfold reminder_report.
  destruct j; try congruence;
  unfold ReminderFlow.validate_reminder_contract; js_eval;
  destruct (strict_eq_str _ (lit "reminder")); js_eval;
  try destruct (strict_eq_str _ (lit "NEEDS_CLARIFICATION"));
  try destruct (strict_eq_str _ (lit "SUCCESS")); same_state.
Qed.

(** The note validation on a body without one of the three keys. *)
Lemma validate_note_missing (j : value) :
  has_property (lit "status") j = false
  \/ has_property (lit "intent") j = false
  \/ has_property (lit "message") j = false ->
  exists d,
    reports (NoteFlow.validate_note_contract j)
      (Throw (Error (lit "ASSERT FAILED: " ++ d))) [note_header].
Proof.
  intros Hm. unfold reports, NoteFlow.validate_note_contract.
  unfold bind at 1. unfold console_log at 1. unfold bind at 1.
  rewrite object_check.
  destruct j; try (eexists; intro; same_state).
  js_eval.
  destruct (has_property (lit "status") (VObj props)) eqn:E1;
    [| eexists; intro; same_state].
  destruct (has_property (lit "intent") (VObj props)) eqn:E2;
    [| eexists; intro; same_state].
  destruct (has_property (lit "message") (VObj props)) eqn:E3;
    [| eexists; intro; same_state].
  destruct Hm as [Hm | [Hm | Hm]]; discriminate.
Qed.

Lemma validate_note_mismatch (j : value) :
  has_property (lit "status") j = true ->
  has_property (lit "intent") j = true ->
  has_property (lit "message") j = true ->
  ToString (get j (lit "message")) <> None ->
  strict_eq_str (get j (lit "intent")) (lit "note") = false ->
  reports (NoteFlow.validate_note_contract j) (Ret tt)
    (note_fields j ++ [note_mismatch_line]).
Proof.
  intros H1 H2 H3 Ht Hi s.
  destruct (has_property_object _ _ H1) as [props ->].
  unfold NoteFlow.validate_note_contract, note_fields, note_mismatch_line,
    text_of.
  unfold bind at 1. unfold console_log at 1. unfold bind at 1.
  rewrite object_check. js_eval. rewrite H1, H2, H3.
  destruct (ToString (get (VObj props) (lit "message"))) as [t|];
    [| congruence].
  rewrite Hi. same_state.
Qed.

(** The note validation on a body with the three keys and a message that
    cannot be converted to text: line 75 throws. *)
Lemma validate_note_unprintable (j : value) :
  has_property (lit "status") j = true ->
  has_property (lit "intent") j = true ->
  has_property (lit "message") j = true ->
  ToString (get j (lit "message")) = None ->
  reports (NoteFlow.validate_note_contract j) (Throw conversion_error)
    (note_fields_before_text j).
Proof.
  intros H1 H2 H3 Ht s.
  destruct (has_property_object _ _ H1) as [props ->].
  unfold NoteFlow.validate_note_contract.
  unfold bind at 1. unfold console_log at 1. unfold bind at 1.
  rewrite object_check. js_eval. rewrite H1, H2, H3, Ht. same_state.
Qed.

Lemma validate_note_passes (j : value) :
  strict_eq_str (get j (lit "intent")) (lit "note") = true ->
  strict_eq_str (get j (lit "status")) (lit "SUCCESS") = true ->
  nonempty_message (get j (lit "message")) ->
  reports (NoteFlow.validate_note_contract j) (Ret tt)
    (note_fields j ++ [note_ok_line]).
Proof.
  intros Hi Hs (m & Hm & Ht) s.
  pose proof Hi as Hi'. pose proof Hs as Hs'.
  apply strict_eq_str_true in Hi', Hs'.
  pose proof (get_has_property _ _ _ Hi') as P2.
  pose proof (get_has_property _ _ _ Hs') as P1.
  pose proof (get_has_property _ _ _ Hm) as P3.
  destruct (has_property_object _ _ P1) as [props ->].
  apply length_positive in Ht.
  unfold NoteFlow.validate_note_contract, note_fields, note_ok_line.
  unfold bind at 1. unfold console_log at 1. unfold bind at 1.
  rewrite object_check. js_eval. rewrite P1, P2, P3, Hi, Hs, Hm.
  rewrite string_check, Ht. cbn [ToString primitive_text]. same_state.
Qed.

Lemma validate_note_fails (j : value) :
  strict_eq_str (get j (lit "intent")) (lit "note") = true ->
  ~ (strict_eq_str (get j (lit "status")) (lit "SUCCESS") = true
     /\ nonempty_message (get j (lit "message"))) ->
  ToString (get j (lit "message")) <> None ->
  exists d lines,
    reports (NoteFlow.validate_note_contract j)
      (Throw (Error (lit "ASSERT FAILED: " ++ d))) lines.
Proof.
  intros Hi Hn Hc.
  pose proof Hi as Hi'. apply strict_eq_str_true in Hi'.
  pose proof (get_has_property _ _ _ Hi') as P2.
  destruct (has_property_object _ _ P2) as [props ->].
  destruct (has_property (lit "status") (VObj props)) eqn:P1;
    [| destruct (validate_note_missing (VObj props)) as [d Hd]; eauto].
  destruct (has_property (lit "message") (VObj props)) eqn:P3;
    [| destruct (validate_note_missing (VObj props)) as [d Hd]; eauto].
  unfold reports, NoteFlow.validate_note_contract.
  unfold bind at 1. unfold console_log at 1. unfold bind at 1.
  rewrite object_check. js_eval. rewrite P1, P2, P3.
  destruct (ToString (get (VObj props) (lit "message"))) as [t|];
    [| congruence].
  rewrite Hi.
  destruct (strict_eq_str (get (VObj props) (lit "status")) (lit "SUCCESS"))
    eqn:Hs; [| eexists _, _; intro; same_state].
  rewrite string_check.
  destruct (get (VObj props) (lit "message")) as [| | | |m| |] eqn:Hm;
    try (eexists _, _; intro; same_state).
  destruct (0 <? N.of_nat (List.length (trim m))) eqn:Ht;
    [| eexists _, _; intro; same_state].
  exfalso. apply Hn. split; [reflexivity|].
  exists m. split; [reflexivity|]. now apply length_positive.
Qed.

(** A message that cannot be converted to text is not a string. *)
Lemma unprintable_is_not_message (v : value) :
  ToString v = None -> ~ nonempty_message v.
Proof. intros Hc (m & -> & _). discriminate Hc. Qed.

(** A note that breaks its contract makes the validation throw, one way or
    the other. *)
Lemma validate_note_raises (j : value) :
  strict_eq_str (get j (lit "intent")) (lit "note") = true ->
  ~ (strict_eq_str (get j (lit "status")) (lit "SUCCESS") = true
     /\ nonempty_message (get j (lit "message"))) ->
  exists e lines, reports (NoteFlow.validate_note_contract j) (Throw e) lines.
Proof.
  intros Hi Hn.
  destruct (ToString (get j (lit "message"))) eqn:Hc.
  - destruct (validate_note_fails j Hi Hn) as (d & l & Hd); [congruence|].
    eauto.
  - destruct (has_property (lit "status") j) eqn:P1;
      [| destruct (validate_note_missing j) as [d Hd]; [now left | eauto]].
    destruct (has_property (lit "intent") j) eqn:P2;
      [| destruct (validate_note_missing j) as [d Hd];
         [now right; left | eauto]].
    destruct (has_property (lit "message") j) eqn:P3;
      [| destruct (validate_note_missing j) as [d Hd];
         [now right; right | eauto]].
    eexists _, _. apply (validate_note_unprintable j P1 P2 P3 Hc).
Qed.

End Script_facts.

Section Run_facts.
Context {H : Host}.

Lemma note_getJson_parsed url o s r w' j :
  fetch (fetch_init url o) (net s) = (inr r, w') ->
  JSON_parse (res_text r) = Some j ->
  NoteFlow.getJson url o s
  = (Ret (mkFetched (res_status r) (res_ok r) j), sent s (fetch_init url o) w').
Proof.
  intros Hf Hp. unfold NoteFlow.getJson, bind, do_fetch.
  rewrite Hf, Hp. same_state.
Qed.

Lemma note_getJson_non_json url o s r w' :
  fetch (fetch_init url o) (net s) = (inr r, w') ->
  JSON_parse (res_text r) = None ->
  NoteFlow.getJson url o s
  = (Throw (Error (non_json_message url r)), sent s (fetch_init url o) w').
Proof.
  intros Hf Hp. unfold NoteFlow.getJson, bind, do_fetch.
  rewrite Hf, Hp. same_state.
Qed.

Lemma reminder_getJson_parsed url o s r w' j :
  fetch (fetch_init url o) (net s) = (inr r, w') ->
  JSON_parse (res_text r) = Some j ->
  ReminderFlow.getJson url o s
  = (Ret (mkFetched (res_status r) (res_ok r) j), sent s (fetch_init url o) w').
Proof.
  intros Hf Hp. unfold ReminderFlow.getJson, bind, do_fetch.
  rewrite Hf, Hp. same_state.
Qed.

Lemma reminder_getJson_non_json url o s r w' :
  fetch (fetch_init url o) (net s) = (inr r, w') ->
  JSON_parse (res_text r) = None ->
  ReminderFlow.getJson url o s
  = (Throw (Error (non_json_message url r)), sent s (fetch_init url o) w').
Proof.
  intros Hf Hp. unfold ReminderFlow.getJson, bind, do_fetch.
  rewrite Hf, Hp. same_state.
Qed.

Lemma note_main_verify_non_json w r1 w1 :
  fetch NoteFlow.verify_request w = (inr r1, w1) ->
  JSON_parse (res_text r1) = None ->
  NoteFlow.main (init w)
  = (Throw (Error (non_json_message NoteFlow.verifyUrl r1)),
     mkState w1 [NoteFlow.verify_request]
       [[AStr (lit "=== 1) VERIFY USER ===")]] []).
Proof.
  intros Hf Hp. unfold NoteFlow.verify_request in *.
  unfold NoteFlow.main. js_eval. rewrite Hf. js_eval. rewrite Hp. same_state.
Qed.

Lemma note_main_short_circuit w r1 w1 v :
  fetch NoteFlow.verify_request w = (inr r1, w1) ->
  JSON_parse (res_text r1) = Some v ->
  truthy (get_opt v (lit "registration_url")) = true ->
  NoteFlow.main (init w)
  = (Ret tt, mkState w1 [NoteFlow.verify_request] (note_short_circuit r1 v) []).
Proof.
  intros Hf Hp Ht. unfold NoteFlow.verify_request in *.
  unfold NoteFlow.main. js_eval. rewrite Hf. js_eval. rewrite Hp. js_eval.
  rewrite Ht. destruct v; try discriminate Ht; same_state.
Qed.

Lemma note_main_post_non_json w r1 w1 v r2 w2 :
  fetch NoteFlow.verify_request w = (inr r1, w1) ->
  JSON_parse (res_text r1) = Some v ->
  truthy (get_opt v (lit "registration_url")) = false ->
  fetch NoteFlow.post_request w1 = (inr r2, w2) ->
  JSON_parse (res_text r2) = None ->
  NoteFlow.main (init w)
  = (Throw (Error (non_json_message NoteFlow.postUrl r2)),
     mkState w2 [NoteFlow.verify_request; NoteFlow.post_request]
       [[AStr (lit "=== 1) VERIFY USER ===")];
        [AStr (lit "HTTP:"); AInt (res_status r1); AStr (lit "OK:");
         ABool (res_ok r1)];
        [AStr (lit "JSON:"); AVal v];
        [AStr (NL ++ lit "=== 2) BRAIN DUMP POST ===")]] []).
Proof.
  intros Hf Hp Ht Hf2 Hp2.
  unfold NoteFlow.verify_request, NoteFlow.post_request in *.
  unfold NoteFlow.main. js_eval. rewrite Hf. js_eval. rewrite Hp. js_eval.
  rewrite Ht, Hf2. js_eval. rewrite Hp2. same_state.
Qed.

Lemma note_main_validates w r1 w1 v r2 w2 j :
  fetch NoteFlow.verify_request w = (inr r1, w1) ->
  JSON_parse (res_text r1) = Some v ->
  truthy (get_opt v (lit "registration_url")) = false ->
  fetch NoteFlow.post_request w1 = (inr r2, w2) ->
  JSON_parse (res_text r2) = Some j ->
  NoteFlow.main (init w)
  = NoteFlow.validate_note_contract j
      (mkState w2 [NoteFlow.verify_request; NoteFlow.post_request]
         (note_preamble r1 v r2 j) []).
Proof.
  intros Hf Hp Ht Hf2 Hp2.
  unfold NoteFlow.verify_request, NoteFlow.post_request in *.
  unfold NoteFlow.main. js_eval. rewrite Hf. js_eval. rewrite Hp. js_eval.
  rewrite Ht, Hf2. js_eval. rewrite Hp2. same_state.
Qed.

Lemma testReminder_validates text description s r w' j :
  fetch (ReminderFlow.post_request text) (net s) = (inr r, w') ->
  JSON_parse (res_text r) = Some j ->
  ReminderFlow.testReminder text description s
  = ReminderFlow.validate_reminder_contract j
      (log_lines
         (sent (log_lines s (reminder_banner text description))
            (ReminderFlow.post_request text) w')
         (reminder_reply_lines r j)).
Proof.
  intros Hf Hp. unfold ReminderFlow.post_request in *.
  destruct s as [w0 sent0 out0 err0]. cbn [net] in Hf.
  unfold ReminderFlow.testReminder. js_eval. rewrite Hf. js_eval. rewrite Hp.
  f_equal. same_state.
Qed.

Lemma testReminder_non_json text description s r w' :
  fetch (ReminderFlow.post_request text) (net s) = (inr r, w') ->
  JSON_parse (res_text r) = None ->
  ReminderFlow.testReminder text description s
  = (Throw (Error (non_json_message ReminderFlow.postUrl r)),
     sent (log_lines s (reminder_banner text description))
       (ReminderFlow.post_request text) w').
Proof.
  intros Hf Hp. unfold ReminderFlow.post_request in *.
  destruct s as [w0 sent0 out0 err0]. cbn [net] in Hf.
  unfold ReminderFlow.testReminder. js_eval. rewrite Hf. js_eval. rewrite Hp.
  same_state.
Qed.

(** The reminder script runs its two tests from a state in which only the
    introduction has been printed. *)
Lemma reminder_main_tests w :
  exists intro,
    ReminderFlow.main (init w)
    = (ReminderFlow.testReminder ReminderFlow.TEST_WITHOUT_TIME
         (lit "Without time → NEEDS_CLARIFICATION");;
       ReminderFlow.testReminder ReminderFlow.TEST_WITH_TIME
         (lit "With time → SUCCESS"))
        (mkState w [] intro []).
Proof. eexists. unfold ReminderFlow.main. unfold bind at 1 2 3. reflexivity. Qed.

End Run_facts.

(** ** Standard error and the verdict of the note validation *)

Section Frame_facts.
Context {H : Host}.

Lemma keeps_stderr_bind {A B : Type} (m : M A) (k : A -> M B) :
  keeps_stderr m -> (forall a, keeps_stderr (k a)) -> keeps_stderr (bind m k).
Proof.
  intros Hm Hk s. unfold bind. specialize (Hm s).
  destruct (m s) as [[a|e] s']; simpl in *; [| assumption].
  now rewrite Hk.
Qed.

Lemma stateless_keeps_stderr {A : Type} (m : M A) :
  stateless m -> keeps_stderr m.
Proof. intros (o & l & Hm) s. now rewrite Hm. Qed.

Lemma do_fetch_keeps_stderr (rq : request) : keeps_stderr (do_fetch rq).
Proof.
  intros s. unfold do_fetch.
  destruct (fetch rq (net s)) as [[e|r] w]; reflexivity.
Qed.

Lemma note_getJson_keeps_stderr url o : keeps_stderr (NoteFlow.getJson url o).
Proof.
  apply keeps_stderr_bind; [apply do_fetch_keeps_stderr | intros r].
  cbv zeta. destruct (JSON_parse (res_text r)); apply stateless_keeps_stderr;
    auto with stateless.
Qed.

Lemma reminder_getJson_keeps_stderr url o :
  keeps_stderr (ReminderFlow.getJson url o).
Proof.
  apply keeps_stderr_bind; [apply do_fetch_keeps_stderr | intros r].
  cbv zeta. destruct (JSON_parse (res_text r)); apply stateless_keeps_stderr;
    auto with stateless.
Qed.

End Frame_facts.

Ltac keeps_stderr_steps :=
  repeat first
    [ apply note_getJson_keeps_stderr
    | apply reminder_getJson_keeps_stderr
    | apply keeps_stderr_bind; [| intros ?]
    | match goal with
      | |- keeps_stderr (if ?c then _ else _) => destruct c
      end
    | solve [apply stateless_keeps_stderr; auto with stateless] ].

Section Verdict_facts.
Context {H : Host}.

Lemma note_main_keeps_stderr : keeps_stderr NoteFlow.main.
Proof.
  unfold NoteFlow.main, NoteFlow.validate_note_contract. keeps_stderr_steps.
Qed.

Lemma reminder_main_keeps_stderr : keeps_stderr ReminderFlow.main.
Proof.
  unfold ReminderFlow.main, ReminderFlow.testReminder,
    ReminderFlow.validate_reminder_contract.
  keeps_stderr_steps.
Qed.

Lemma nonempty_message_dec (v : value) :
  nonempty_message v \/ ~ nonempty_message v.
Proof.
  destruct v as [| | | |m| |];
    try (right; intros (m' & E & _); discriminate E).
  destruct (trim m) eqn:Et.
  - right. intros (m' & [= <-] & Hn). now apply Hn.
  - left. exists m. split; [reflexivity | now rewrite Et].
Qed.

(** The note validation fails in two ways only: a failed assertion, or the
    conversion of the message to text. *)
Lemma validate_note_throws (j : value) (s : state) (e : exn) :
  fst (NoteFlow.validate_note_contract j s) = Throw e ->
  contract_violation e
  \/ (e = conversion_error /\ ToString (get j (lit "message")) = None).
Proof.
  intros He.
  destruct (has_property (lit "status") j) eqn:P1;
    [| destruct (validate_note_missing j) as [d Hd]; [now left|];
       rewrite Hd in He; injection He as <-; left; now exists d].
  destruct (has_property (lit "intent") j) eqn:P2;
    [| destruct (validate_note_missing j) as [d Hd]; [now right; left|];
       rewrite Hd in He; injection He as <-; left; now exists d].
  destruct (has_property (lit "message") j) eqn:P3;
    [| destruct (validate_note_missing j) as [d Hd]; [now right; right|];
       rewrite Hd in He; injection He as <-; left; now exists d].
  destruct (ToString (get j (lit "message"))) as [t|] eqn:Hc.
  - assert (Hc' : ToString (get j (lit "message")) <> None) by congruence.
    left.
    destruct (strict_eq_str (get j (lit "intent")) (lit "note")) eqn:Hi.
    + destruct (strict_eq_str (get j (lit "status")) (lit "SUCCESS")) eqn:Hs.
      * destruct (nonempty_message_dec (get j (lit "message"))) as [Hm | Hm].
        -- rewrite (validate_note_passes j Hi Hs Hm) in He. discriminate He.
        -- destruct (validate_note_fails j Hi) as (d & l & Hd);
             [tauto | exact Hc' |].
           rewrite Hd in He. injection He as <-. now exists d.
      * destruct (validate_note_fails j Hi) as (d & l & Hd);
          [intros [Hs' _]; congruence | exact Hc' |].
        rewrite Hd in He. injection He as <-. now exists d.
    + rewrite (validate_note_mismatch j P1 P2 P3 Hc' Hi) in He.
      discriminate He.
  - right. rewrite (validate_note_unprintable j P1 P2 P3 Hc) in He.
    injection He as <-. now split.
Qed.

End Verdict_facts.

(** ** Decimal texts, white space and the cell *)

Lemma uint_of_digits_of_uint (d : Decimal.uint) :
  uint_of_digits (digits_of_uint d) = Some d.
Proof.
  induction d as [|d IH|d IH|d IH|d IH|d IH|d IH|d IH|d IH|d IH|d IH];
    simpl; [reflexivity | rewrite IH; reflexivity ..].
Qed.

(** The text of a status code is its decimal notation. *)
Lemma decimal_value_int_to_string (n : N) :
  decimal_value (int_to_string n) = Some n.
Proof.
  unfold decimal_value, int_to_string.
  rewrite uint_of_digits_of_uint. f_equal. apply DecimalN.Unsigned.of_to.
Qed.

Lemma trim_start_head (s : jsstr) (c : N) (r : jsstr) :
  trim_start s = c :: r -> is_white_space c = false.
Proof.
  induction s as [|a s IH]; simpl; [discriminate|].
  destruct (is_white_space a) eqn:E; [exact IH|].
  intros [= <- _]. exact E.
Qed.

Lemma trim_start_nil (s : jsstr) :
  trim_start s = [] <-> (forall c, In c s -> is_white_space c = true).
Proof.
  induction s as [|a s IH]; simpl.
  - split; [intros _ c [] | reflexivity].
  - destruct (is_white_space a) eqn:E.
    + rewrite IH. split.
      * intros Hall c [<- | Hin]; [exact E | now apply Hall].
      * intros Hall c Hin. apply Hall. now right.
    + split; [discriminate|]. intros Hall.
      specialize (Hall a (or_introl eq_refl)). congruence.
Qed.

Lemma trim_nil (s : jsstr) :
  trim s = [] <-> (forall c, In c s -> is_white_space c = true).
Proof.
  unfold trim. split.
  - intros Ht. apply trim_start_nil.
    apply (f_equal (@rev N)) in Ht. rewrite rev_involutive in Ht.
    simpl in Ht. rewrite trim_start_nil in Ht.
    destruct (trim_start s) as [|c r] eqn:Es; [reflexivity|].
    apply trim_start_head in Es.
    specialize (Ht c). rewrite <- in_rev in Ht.
    specialize (Ht (or_introl eq_refl)). congruence.
  - intros Hall. apply trim_start_nil in Hall. now rewrite Hall.
Qed.

(** A text survives the trimming when one of its code units is not white
    space. *)
Lemma trim_nonempty (s : jsstr) :
  trim s <> [] <-> (exists c, In c s /\ is_white_space c = false).
Proof.
  rewrite trim_nil. split.
  - intros Hn. induction s as [|a s IH].
    + exfalso. apply Hn. intros c [].
    + destruct (is_white_space a) eqn:E.
      * destruct IH as (c & Hin & Hc).
        { intros Hall. apply Hn. intros c [<- | Hin]; auto. }
        exists c. split; [now right | exact Hc].
      * exists a. split; [now left | exact E].
  - intros (c & Hin & Hc) Hall. specialize (Hall c Hin). congruence.
Qed.

Section Cell_facts.
Context {H : Host}.

Lemma mirrors_on_response {A : Type} (f : value -> M A) :
  Cell.mirrors (Cell.on_response f) f.
Proof. intros j s. reflexivity. Qed.

Lemma mirrors_step {A : Type} (m : M A) :
  Cell.mirrors (Cell.step m) (fun _ => m).
Proof. intros j s. reflexivity. Qed.

Lemma mirrors_bind {A B : Type} (mc : Cell.MC A) (m : value -> M A)
  (kc : A -> Cell.MC B) (k : A -> value -> M B) :
  Cell.mirrors mc m -> (forall a, Cell.mirrors (kc a) (k a)) ->
  Cell.mirrors (Cell.bindC mc kc) (fun j => bind (m j) (fun a => k a j)).
Proof.
  intros Hm Hk j s. unfold Cell.bindC, bind. rewrite Hm.
  destruct (m j s) as [[a|e] s']; [apply Hk | reflexivity].
Qed.

Lemma mirrors_if {A : Type} (c : bool) (a b : Cell.MC A)
  (m1 m2 : value -> M A) :
  Cell.mirrors a m1 -> Cell.mirrors b m2 ->
  Cell.mirrors (if c then a else b) (fun j => if c then m1 j else m2 j).
Proof. now destruct c. Qed.

End Cell_facts.

Ltac mirrors_steps :=
  repeat first
    [ apply mirrors_on_response
    | apply mirrors_step
    | eapply mirrors_if
    | eapply mirrors_bind; [| intros ?] ].

Section Cell_validation_facts.
Context {H : Host}.

(** The note validation on the cell is the note validation on its content,
    and leaves the content in place. *)
Lemma cell_validate_note (j : value) (s : state) :
  Cell.validate_note_contract (Cell.mkCell j s)
  = (let (o, s') := NoteFlow.validate_note_contract j s in
     (o, Cell.mkCell j s')).
Proof.
  assert (Hm : exists m, Cell.mirrors Cell.validate_note_contract m
                         /\ forall j s, m j s = NoteFlow.validate_note_contract j s).
  { eexists. split.
    - unfold Cell.validate_note_contract. mirrors_steps.
    - intros j' s'. reflexivity. }
  destruct Hm as (m & Hm & Heq). rewrite Hm, Heq. reflexivity.
Qed.

Lemma cell_validate_reminder (j : value) (s : state) :
  Cell.validate_reminder_contract (Cell.mkCell j s)
  = (let (o, s') := ReminderFlow.validate_reminder_contract j s in
     (o, Cell.mkCell j s')).
Proof.
  assert (Hm : exists m, Cell.mirrors Cell.validate_reminder_contract m
                         /\ forall j s,
                              m j s = ReminderFlow.validate_reminder_contract j s).
  { eexists. split.
    - unfold Cell.validate_reminder_contract. mirrors_steps.
    - intros j' s'. reflexivity. }
  destruct Hm as (m & Hm & Heq). rewrite Hm, Heq. reflexivity.
Qed.

End Cell_validation_facts.

(** * The claims *)

Lemma success_is_not_clarification :
  jsstr_eqb (lit "SUCCESS") (lit "NEEDS_CLARIFICATION") = false.
Proof. vm_compute. reflexivity. Qed.

(** ** The reminder contract *)

(** C1, as the code has it.  For a body with [intent === "reminder"] and
    [status === "SUCCESS"] the reminder validation checks neither
    [reminder_time] nor [reminder_date]: whatever the two fields hold
    (nothing, a malformed text, an out-of-range time such as 25:99) it prints
    the fields, then the reminder to create, and returns without raising. *)
Theorem reminder_success_fields_unchecked {H : Host} (j : value) (s : state) :
  strict_eq_str (get j (lit "intent")) (lit "reminder") = true ->
  strict_eq_str (get j (lit "status")) (lit "SUCCESS") = true ->
  ReminderFlow.validate_reminder_contract j s
  = (Ret tt,
     log_lines s (reminder_header :: reminder_fields j ++ reminder_create j)).
Proof.
  intros Hi Hs.
  assert (N1 : j <> VNull) by (intros ->; discriminate Hi).
  assert (N2 : j <> VUndefined) by (intros ->; discriminate Hi).
  rewrite (validate_reminder_reports j N1 N2 s).
  unfold reminder_report. rewrite Hi, Hs.
  apply strict_eq_str_true in Hs. rewrite Hs.
  unfold strict_eq_str. now rewrite success_is_not_clarification.
Qed.

Lemma reminder_success_fields_unchecked_witness :
  @ReminderFlow.validate_reminder_contract Example.host
    Example.late_success_json (init (Example.network []))
  = (Ret tt,
     log_lines (init (Example.network []))
       (reminder_header :: reminder_fields Example.late_success_json
        ++ reminder_create Example.late_success_json)).
Proof.
  apply (@reminder_success_fields_unchecked Example.host);
    vm_compute; reflexivity.
Defined.

(** C1 fails as stated: a successful reminder without [reminder_time] and
    [reminder_date] passes the validation, and a run that receives it twice
    ends with exit code 0 and nothing on standard error. *)
Lemma reminder_success_without_time_passes :
  get Example.bare_success_json (lit "intent") = VStr (lit "reminder")
  /\ get Example.bare_success_json (lit "status") = VStr (lit "SUCCESS")
  /\ get Example.bare_success_json (lit "reminder_time") = VUndefined
  /\ get Example.bare_success_json (lit "reminder_date") = VUndefined
  /\ fst (@ReminderFlow.validate_reminder_contract Example.host
            Example.bare_success_json (init (Example.network [])))
     = Ret tt
  /\ exit_code
       (@ReminderFlow.script Example.host
          (Example.network
             [Example.reply 200 Example.bare_success_body;
              Example.reply 200 Example.bare_success_body]))
     = 0
  /\ stderr
       (final
          (@ReminderFlow.script Example.host
             (Example.network
             [Example.reply 200 Example.bare_success_body;
              Example.reply 200 Example.bare_success_body])))
     = [].
Proof. vm_compute. repeat split. Qed.

(** C2, as the code has it.  For a body with [intent === "reminder"] and
    [status === "NEEDS_CLARIFICATION"] the reminder validation does not check
    [clarification_for]: present or not, it prints the fields, the value of
    [clarification_for] and the hint to ask for a time, and returns without
    raising. *)
Theorem reminder_clarification_unchecked {H : Host} (j : value) (s : state) :
  strict_eq_str (get j (lit "intent")) (lit "reminder") = true ->
  strict_eq_str (get j (lit "status")) (lit "NEEDS_CLARIFICATION") = true ->
  ReminderFlow.validate_reminder_contract j s
  = (Ret tt,
     log_lines s (reminder_header :: reminder_fields j ++ reminder_ask j)).
Proof.
  intros Hi Hs.
  assert (N1 : j <> VNull) by (intros ->; discriminate Hi).
  assert (N2 : j <> VUndefined) by (intros ->; discriminate Hi).
  rewrite (validate_reminder_reports j N1 N2 s).
  unfold reminder_report. now rewrite Hi, Hs.
Qed.

Lemma reminder_clarification_unchecked_witness :
  @ReminderFlow.validate_reminder_contract Example.host
    Example.bare_clarification_json (init (Example.network []))
  = (Ret tt,
     log_lines (init (Example.network []))
       (reminder_header :: reminder_fields Example.bare_clarification_json
        ++ reminder_ask Example.bare_clarification_json)).
Proof.
  apply (@reminder_clarification_unchecked Example.host);
    vm_compute; reflexivity.
Defined.

(** C2 fails as stated: a reminder that needs clarification and has no
    [clarification_for] passes the validation, and a run that receives it
    twice ends with exit code 0 and nothing on standard error. *)
Lemma reminder_clarification_without_field_passes :
  get Example.bare_clarification_json (lit "intent") = VStr (lit "reminder")
  /\ get Example.bare_clarification_json (lit "status")
     = VStr (lit "NEEDS_CLARIFICATION")
  /\ has_property (lit "clarification_for") Example.bare_clarification_json
     = false
  /\ fst (@ReminderFlow.validate_reminder_contract Example.host
            Example.bare_clarification_json (init (Example.network [])))
     = Ret tt
  /\ exit_code
       (@ReminderFlow.script Example.host
          (Example.network
             [Example.reply 200 Example.bare_clarification_body;
              Example.reply 200 Example.bare_clarification_body]))
     = 0
  /\ stderr
       (final
          (@ReminderFlow.script Example.host
             (Example.network
             [Example.reply 200 Example.bare_clarification_body;
              Example.reply 200 Example.bare_clarification_body])))
     = [].
Proof. vm_compute. repeat split. Qed.

(** C10, as the code has it.  Take a parsed body [j] that fails the note
    flow's own object test ([typeof j === "object" && j !== null]): a
    primitive or [null].  The note validation stops at its first assertion,
    before it reads any field.  The reminder validation reads [intent] with
    no such test: on [null] (and on [undefined]) the read raises a
    [TypeError], which is not a contract violation; on a boolean, a number or
    a string the read gives [undefined], so the validation prints the intent
    mismatch and returns without raising. *)
Theorem reminder_reads_intent_unguarded {H : Host} (j : value) (s : state) :
  jsstr_eqb (typeof j) (lit "object") && not_null j = false ->
  NoteFlow.validate_note_contract j s
  = (Throw (Error (lit "ASSERT FAILED: " ++ lit "Response must be an object")),
     log_lines s [note_header])
  /\ (j = VNull \/ j = VUndefined ->
      exists m,
        ReminderFlow.validate_reminder_contract j s
        = (Throw (TypeError m), log_lines s [reminder_header])
        /\ ~ contract_violation (TypeError m))
  /\ (j <> VNull -> j <> VUndefined ->
      ReminderFlow.validate_reminder_contract j s
      = (Ret tt, log_lines s (reminder_header :: reminder_mismatch j))).
Proof.
  intros Hobj. rewrite object_check in Hobj. split; [| split].
  - unfold NoteFlow.validate_note_contract.
    unfold bind at 1. unfold console_log at 1. unfold bind at 1.
    rewrite object_check.
    destruct j; try discriminate Hobj; same_state.
  - intros [-> | ->]; eexists; (split; [| intros [d Hd]; discriminate Hd]);
      unfold ReminderFlow.validate_reminder_contract; same_state.
  - intros N1 N2. rewrite (validate_reminder_reports j N1 N2 s).
    unfold reminder_report.
    destruct j; try discriminate Hobj; try congruence; reflexivity.
Qed.

Lemma reminder_reads_intent_unguarded_witness :
  @NoteFlow.validate_note_contract Example.host VNull
    (init (Example.network []))
  = (Throw (Error (lit "ASSERT FAILED: " ++ lit "Response must be an object")),
     log_lines (init (Example.network [])) [note_header])
  /\ exists m,
       @ReminderFlow.validate_reminder_contract Example.host VNull
         (init (Example.network []))
       = (Throw (TypeError m),
          log_lines (init (Example.network [])) [reminder_header])
       /\ ~ contract_violation (TypeError m).
Proof.
  destruct (@reminder_reads_intent_unguarded Example.host VNull
              (init (Example.network [])) eq_refl) as (Hn & Hr & _).
  split; [exact Hn | apply Hr; left; reflexivity].
Defined.

(** C10 fails as stated for the non-object values other than [null]: the
    body [true] is valid JSON and not an object, yet the reminder validation
    returns without raising, and a run that receives it twice ends with exit
    code 0 and nothing on standard error. *)
Lemma reminder_primitive_body_passes :
  @JSON_parse Example.host Example.true_body = Some (VBool true)
  /\ jsstr_eqb (typeof (VBool true)) (lit "object") = false
  /\ @ReminderFlow.validate_reminder_contract Example.host (VBool true)
       (init (Example.network []))
     = (Ret tt,
        log_lines (init (Example.network []))
          (reminder_header :: reminder_mismatch (VBool true)))
  /\ exit_code
       (@ReminderFlow.script Example.host
          (Example.network
             [Example.reply 200 Example.true_body;
              Example.reply 200 Example.true_body]))
     = 0
  /\ stderr
       (final
          (@ReminderFlow.script Example.host
             (Example.network
                [Example.reply 200 Example.true_body;
                 Example.reply 200 Example.true_body])))
     = [].
Proof. vm_compute. repeat split. Qed.

(** ** The note contract *)

(** C3, as the code has it.  For a body with [intent === "note"] the note
    validation raises exactly when the conjunction fails, that is unless
    [status === "SUCCESS"] and [message] is a string that is not empty once
    trimmed (one of its code units is not white space); when the message can
    be converted to text, as every string can, what it raises is a failed
    assertion; and when it passes, both hold. *)
Theorem note_contract_is_conjunction {H : Host} (j : value) (s : state) :
  strict_eq_str (get j (lit "intent")) (lit "note") = true ->
  ((exists e, fst (NoteFlow.validate_note_contract j s) = Throw e)
   <-> ~ (strict_eq_str (get j (lit "status")) (lit "SUCCESS") = true
          /\ nonempty_message (get j (lit "message"))))
  /\ (ToString (get j (lit "message")) <> None ->
      forall e, fst (NoteFlow.validate_note_contract j s) = Throw e ->
      contract_violation e)
  /\ (fst (NoteFlow.validate_note_contract j s) = Ret tt ->
      strict_eq_str (get j (lit "status")) (lit "SUCCESS") = true
      /\ nonempty_message (get j (lit "message")))
  /\ (nonempty_message (get j (lit "message"))
      <-> exists m,
            get j (lit "message") = VStr m
            /\ exists c, In c m /\ is_white_space c = false).
Proof.
  intros Hi. split; [| split; [| split]].
  - split.
    + intros [e He] [Hs Hm].
      rewrite (validate_note_passes j Hi Hs Hm) in He. discriminate He.
    + intros Hn. destruct (validate_note_raises j Hi Hn) as (e & l & Hd).
      exists e. now rewrite Hd.
  - intros Hc e He.
    destruct (validate_note_throws j s e He) as [Hv | [_ Hnone]];
      [exact Hv | congruence].
  - intros Hr.
    destruct (strict_eq_str (get j (lit "status")) (lit "SUCCESS")) eqn:Hs.
    + destruct (nonempty_message_dec (get j (lit "message"))) as [Hm | Hm];
        [now split|].
      destruct (validate_note_raises j Hi) as (e & l & Hd); [tauto|].
      rewrite Hd in Hr. discriminate Hr.
    + destruct (validate_note_raises j Hi) as (e & l & Hd).
      { intros [Hs' _]. congruence. }
      rewrite Hd in Hr. discriminate Hr.
  - unfold nonempty_message. split.
    + intros (m & Hm & Ht). exists m. split; [exact Hm|].
      now apply trim_nonempty.
    + intros (m & Hm & Hc). exists m. split; [exact Hm|].
      now apply trim_nonempty.
Qed.

Lemma note_contract_is_conjunction_witness :
  strict_eq_str (get Example.note_json (lit "status")) (lit "SUCCESS") = true
  /\ nonempty_message (get Example.note_json (lit "message")).
Proof.
  apply (@note_contract_is_conjunction Example.host Example.note_json
           (init (Example.network [])));
    vm_compute; reflexivity.
Defined.

(** C3 fails as stated: on a note with a status other than [SUCCESS] and an
    empty message the two sides of the biconditional are both false, so it
    holds, and the validation raises all the same. *)
Lemma note_contract_is_not_biconditional :
  get Example.failed_note_json (lit "intent") = VStr (lit "note")
  /\ (strict_eq_str (get Example.failed_note_json (lit "status"))
        (lit "SUCCESS") = true
      <-> nonempty_message (get Example.failed_note_json (lit "message")))
  /\ fst (@NoteFlow.validate_note_contract Example.host
            Example.failed_note_json (init (Example.network [])))
     = Throw (Error (lit "ASSERT FAILED: "
                     ++ lit "For note, status must be SUCCESS")).
Proof.
  split; [vm_compute; reflexivity | split; [| vm_compute; reflexivity]].
  split.
  - intros E. vm_compute in E. discriminate E.
  - intros (m & E & Hn). vm_compute in E. injection E as <-.
    exfalso. apply Hn. reflexivity.
Qed.

(** C4.  Once the run has parsed the reply to its POST as [j], whatever
    [intent] is: if one of the keys [status], [intent], [message] is absent
    the run fails on an assertion, with exit code 1 and the assertion on
    standard error, before any field is printed; if the three keys are
    there, the message can be converted to text and [intent] is not
    ["note"], the validation prints the fields and the intent mismatch,
    raises nothing, and the run ends with exit code 0 and nothing on
    standard error.  Where the message cannot be converted (it is, or holds,
    an object with a key [toString] of its own), the concatenation of line
    75 throws before the intent is looked at, and the run ends with exit
    code 1 and the [TypeError] on standard error, intent mismatch or not. *)
Theorem note_presence_then_intent {H : Host} w r1 w1 v r2 w2 j :
  fetch NoteFlow.verify_request w = (inr r1, w1) ->
  JSON_parse (res_text r1) = Some v ->
  truthy (get_opt v (lit "registration_url")) = false ->
  fetch NoteFlow.post_request w1 = (inr r2, w2) ->
  JSON_parse (res_text r2) = Some j ->
  (has_property (lit "status") j = false
   \/ has_property (lit "intent") j = false
   \/ has_property (lit "message") j = false ->
   exists d,
     NoteFlow.script w
     = mkResult 1
         (mkState w2 [NoteFlow.verify_request; NoteFlow.post_request]
            (note_preamble r1 v r2 j ++ [note_header])
            [[AStr (NL ++ lit "❌ ERROR:");
              AStr (lit "ASSERT FAILED: " ++ d)]]))
  /\ (has_property (lit "status") j = true ->
      has_property (lit "intent") j = true ->
      has_property (lit "message") j = true ->
      ToString (get j (lit "message")) <> None ->
      strict_eq_str (get j (lit "intent")) (lit "note") = false ->
      NoteFlow.script w
      = mkResult 0
          (mkState w2 [NoteFlow.verify_request; NoteFlow.post_request]
             (note_preamble r1 v r2 j ++ note_fields j ++ [note_mismatch_line])
             []))
  /\ (has_property (lit "status") j = true ->
      has_property (lit "intent") j = true ->
      has_property (lit "message") j = true ->
      ToString (get j (lit "message")) = None ->
      NoteFlow.script w
      = mkResult 1
          (mkState w2 [NoteFlow.verify_request; NoteFlow.post_request]
             (note_preamble r1 v r2 j ++ note_fields_before_text j)
             [[AStr (NL ++ lit "❌ ERROR:");
               AStr (lit "Cannot convert object to primitive value")]])).
Proof.
  intros Hf Hp Ht Hf2 Hp2.
  pose proof (note_main_validates w r1 w1 v r2 w2 j Hf Hp Ht Hf2 Hp2) as Hmain.
  split; [| split].
  - intros Hm. destruct (validate_note_missing j Hm) as [d Hd].
    exists d. unfold NoteFlow.script. rewrite Hmain, Hd. same_state.
  - intros P1 P2 P3 Hc Hi. unfold NoteFlow.script.
    rewrite Hmain, (validate_note_mismatch j P1 P2 P3 Hc Hi). reflexivity.
  - intros P1 P2 P3 Hc. unfold NoteFlow.script.
    rewrite Hmain, (validate_note_unprintable j P1 P2 P3 Hc). same_state.
Qed.

Lemma note_presence_then_intent_witness :
  (exists d,
     @NoteFlow.script Example.host
       (Example.network
          [Example.reply 200 Example.registered_body;
           Example.reply 200 Example.no_message_body])
     = mkResult 1
         (mkState (Example.network [])
            [@NoteFlow.verify_request Example.host;
             @NoteFlow.post_request Example.host]
            (note_preamble (mkResponse 200 Example.registered_body)
               Example.registered_json
               (mkResponse 200 Example.no_message_body)
               Example.no_message_json
             ++ [note_header])
            [[AStr (NL ++ lit "❌ ERROR:");
              AStr (lit "ASSERT FAILED: " ++ d)]]))
  /\ @NoteFlow.script Example.host
       (Example.network
          [Example.reply 200 Example.registered_body;
           Example.reply 200 Example.other_body])
     = mkResult 0
         (mkState (Example.network [])
            [@NoteFlow.verify_request Example.host;
             @NoteFlow.post_request Example.host]
            (note_preamble (mkResponse 200 Example.registered_body)
               Example.registered_json
               (mkResponse 200 Example.other_body) Example.other_json
             ++ @note_fields Example.host Example.other_json
             ++ [note_mismatch_line])
            [])
  /\ @NoteFlow.script Example.host
       (Example.network
          [Example.reply 200 Example.registered_body;
           Example.reply 200 Example.unprintable_body])
     = mkResult 1
         (mkState (Example.network [])
            [@NoteFlow.verify_request Example.host;
             @NoteFlow.post_request Example.host]
            (note_preamble (mkResponse 200 Example.registered_body)
               Example.registered_json
               (mkResponse 200 Example.unprintable_body)
               Example.unprintable_json
             ++ note_fields_before_text Example.unprintable_json)
            [[AStr (NL ++ lit "❌ ERROR:");
              AStr (lit "Cannot convert object to primitive value")]]).
Proof.
  split; [| split].
  - apply (@note_presence_then_intent Example.host
             (Example.network
                [Example.reply 200 Example.registered_body;
                 Example.reply 200 Example.no_message_body])
             (mkResponse 200 Example.registered_body)
             (Example.network [Example.reply 200 Example.no_message_body])
             Example.registered_json
             (mkResponse 200 Example.no_message_body)
             (Example.network []) Example.no_message_json);
      try (vm_compute; reflexivity).
    right; right. vm_compute. reflexivity.
  - apply (@note_presence_then_intent Example.host
             (Example.network
                [Example.reply 200 Example.registered_body;
                 Example.reply 200 Example.other_body])
             (mkResponse 200 Example.registered_body)
             (Example.network [Example.reply 200 Example.other_body])
             Example.registered_json
             (mkResponse 200 Example.other_body)
             (Example.network []) Example.other_json);
      first [vm_compute; reflexivity | vm_compute; discriminate].
  - apply (@note_presence_then_intent Example.host
             (Example.network
                [Example.reply 200 Example.registered_body;
                 Example.reply 200 Example.unprintable_body])
             (mkResponse 200 Example.registered_body)
             (Example.network [Example.reply 200 Example.unprintable_body])
             Example.registered_json
             (mkResponse 200 Example.unprintable_body)
             (Example.network []) Example.unprintable_json);
      vm_compute; reflexivity.
Defined.

(** ** Failures and the exit code *)

(** C5.  A failed assertion throws an error whose message is the
    description of the failed condition after ["ASSERT FAILED: "], and
    nothing that follows it runs.  Whatever the network answers, the note
    script ends in one of two ways: its body returns, the exit code is 0 and
    standard error is empty; or its body throws, nothing more is printed to
    standard output, the message of the error is printed after the error
    mark as the one line on standard error and the exit code is 1.  So when
    the validation of the parsed reply fails on an assertion, the run ends
    with exit code 1 and the description of that assertion on standard
    error.  The validation throws nothing but failed assertions and the
    [TypeError] of line 75.  The reminder script, which asserts nothing,
    ends in the same two ways. *)
Theorem failed_assertion_stops_run {H : Host} :
  (forall msg s,
     NoteFlow.assert false msg s
     = (Throw (Error (lit "ASSERT FAILED: " ++ msg)), s))
  /\ (forall (A : Type) msg (k : unit -> M A) s,
        bind (NoteFlow.assert false msg) k s
        = (Throw (Error (lit "ASSERT FAILED: " ++ msg)), s))
  /\ (forall w,
        match NoteFlow.main (init w) with
        | (Ret _, s) => NoteFlow.script w = mkResult 0 s /\ stderr s = []
        | (Throw (Error m), s) | (Throw (TypeError m), s) =>
            NoteFlow.script w
            = mkResult 1
                (mkState (net s) (requests s) (stdout s)
                   [[AStr (NL ++ lit "❌ ERROR:"); AStr m]])
        end)
  /\ (forall w r1 w1 v r2 w2 j s d,
        fetch NoteFlow.verify_request w = (inr r1, w1) ->
        JSON_parse (res_text r1) = Some v ->
        truthy (get_opt v (lit "registration_url")) = false ->
        fetch NoteFlow.post_request w1 = (inr r2, w2) ->
        JSON_parse (res_text r2) = Some j ->
        fst (NoteFlow.validate_note_contract j s)
        = Throw (Error (lit "ASSERT FAILED: " ++ d)) ->
        exit_code (NoteFlow.script w) = 1
        /\ stderr (final (NoteFlow.script w))
           = [[AStr (NL ++ lit "❌ ERROR:");
               AStr (lit "ASSERT FAILED: " ++ d)]]
        /\ requests (final (NoteFlow.script w))
           = [NoteFlow.verify_request; NoteFlow.post_request])
  /\ (forall j s e,
        fst (NoteFlow.validate_note_contract j s) = Throw e ->
        contract_violation e
        \/ (e = conversion_error /\ ToString (get j (lit "message")) = None))
  /\ (forall w,
        match ReminderFlow.main (init w) with
        | (Ret _, s) => ReminderFlow.script w = mkResult 0 s /\ stderr s = []
        | (Throw (Error m), s) | (Throw (TypeError m), s) =>
            ReminderFlow.script w
            = mkResult 1
                (mkState (net s) (requests s) (stdout s)
                   [[AStr (NL ++ lit "❌ ERROR:"); AStr m]])
        end).
Proof.
  split; [reflexivity | split; [reflexivity |]].
  split; [| split; [| split]].
  - intros w. pose proof (note_main_keeps_stderr (init w)) as Hk.
    unfold NoteFlow.script.
    destruct (NoteFlow.main (init w)) as [[u|[m|m]] s]; simpl in Hk.
    + now split.
    + unfold console_error. simpl. now rewrite Hk.
    + unfold console_error. simpl. now rewrite Hk.
  - intros w r1 w1 v r2 w2 j s d Hf Hp Ht Hf2 Hp2 Hd.
    unfold NoteFlow.script.
    rewrite (note_main_validates w r1 w1 v r2 w2 j Hf Hp Ht Hf2 Hp2).
    destruct (validate_note_stateless j) as (o & lines & Hr).
    rewrite Hr in Hd. cbn [fst] in Hd. subst o. rewrite Hr.
    repeat split; same_state.
  - apply validate_note_throws.
  - intros w. pose proof (reminder_main_keeps_stderr (init w)) as Hk.
    unfold ReminderFlow.script.
    destruct (ReminderFlow.main (init w)) as [[u|[m|m]] s]; simpl in Hk.
    + now split.
    + unfold console_error. simpl. now rewrite Hk.
    + unfold console_error. simpl. now rewrite Hk.
Qed.

Lemma status_assertion_text :
  lit "ASSERT FAILED: For note, status must be SUCCESS"
  = lit "ASSERT FAILED: " ++ lit "For note, status must be SUCCESS".
Proof. vm_compute. reflexivity. Qed.

Lemma failed_assertion_stops_run_witness :
  exit_code
    (@NoteFlow.script Example.host
       (Example.network
          [Example.reply 200 Example.registered_body;
           Example.reply 200 Example.failed_note_body]))
  = 1
  /\ stderr
       (final
          (@NoteFlow.script Example.host
             (Example.network
                [Example.reply 200 Example.registered_body;
                 Example.reply 200 Example.failed_note_body])))
     = [[AStr (NL ++ lit "❌ ERROR:");
         AStr (lit "ASSERT FAILED: For note, status must be SUCCESS")]]
  /\ requests
       (final
          (@NoteFlow.script Example.host
             (Example.network
                [Example.reply 200 Example.registered_body;
                 Example.reply 200 Example.failed_note_body])))
     = [@NoteFlow.verify_request Example.host;
        @NoteFlow.post_request Example.host].
Proof.
  rewrite status_assertion_text.
  apply (proj1 (proj2 (proj2 (proj2 (@failed_assertion_stops_run Example.host))))
           (Example.network
              [Example.reply 200 Example.registered_body;
               Example.reply 200 Example.failed_note_body])
           (mkResponse 200 Example.registered_body)
           (Example.network [Example.reply 200 Example.failed_note_body])
           Example.registered_json
           (mkResponse 200 Example.failed_note_body)
           (Example.network []) Example.failed_note_json
           (init (Example.network [])));
    vm_compute; reflexivity.
Defined.

(** C6.  When the body of a reply is not JSON, [getJson] (the same in both
    scripts) throws an error whose message holds the HTTP status code, in
    decimal after ["Status: "], and the raw body, and the run aborts: in the
    note script on the reply of either endpoint, in the reminder script on
    the reply to the first POST or, when the first test has returned, to the
    second; the exit code is 1, the message is printed as the one line on
    standard error and no further request is made. *)
Theorem non_json_reply_aborts {H : Host} :
  (forall url o s r w',
     fetch (fetch_init url o) (net s) = (inr r, w') ->
     JSON_parse (res_text r) = None ->
     NoteFlow.getJson url o s
     = (Throw (Error (non_json_message url r)), sent s (fetch_init url o) w')
     /\ ReminderFlow.getJson url o s
        = (Throw (Error (non_json_message url r)),
           sent s (fetch_init url o) w'))
  /\ (forall url r,
        non_json_message url r
        = lit "Non-JSON response from " ++ url ++ NL
          ++ lit "Status: " ++ int_to_string (res_status r) ++ NL
          ++ lit "Body:" ++ NL ++ res_text r
        /\ decimal_value (int_to_string (res_status r)) = Some (res_status r)
        /\ contains (non_json_message url r) (int_to_string (res_status r))
        /\ contains (non_json_message url r) (res_text r))
  /\ (forall w r1 w1,
        fetch NoteFlow.verify_request w = (inr r1, w1) ->
        JSON_parse (res_text r1) = None ->
        exit_code (NoteFlow.script w) = 1
        /\ stderr (final (NoteFlow.script w))
           = [[AStr (NL ++ lit "❌ ERROR:");
               AStr (non_json_message NoteFlow.verifyUrl r1)]]
        /\ requests (final (NoteFlow.script w)) = [NoteFlow.verify_request])
  /\ (forall w r1 w1 v r2 w2,
        fetch NoteFlow.verify_request w = (inr r1, w1) ->
        JSON_parse (res_text r1) = Some v ->
        truthy (get_opt v (lit "registration_url")) = false ->
        fetch NoteFlow.post_request w1 = (inr r2, w2) ->
        JSON_parse (res_text r2) = None ->
        exit_code (NoteFlow.script w) = 1
        /\ stderr (final (NoteFlow.script w))
           = [[AStr (NL ++ lit "❌ ERROR:");
               AStr (non_json_message NoteFlow.postUrl r2)]]
        /\ requests (final (NoteFlow.script w))
           = [NoteFlow.verify_request; NoteFlow.post_request])
  /\ (forall w r1 w1,
        fetch (ReminderFlow.post_request ReminderFlow.TEST_WITHOUT_TIME) w
        = (inr r1, w1) ->
        JSON_parse (res_text r1) = None ->
        exit_code (ReminderFlow.script w) = 1
        /\ stderr (final (ReminderFlow.script w))
           = [[AStr (NL ++ lit "❌ ERROR:");
               AStr (non_json_message ReminderFlow.postUrl r1)]]
        /\ requests (final (ReminderFlow.script w))
           = [ReminderFlow.post_request ReminderFlow.TEST_WITHOUT_TIME])
  /\ (forall w r1 w1 j1 r2 w2,
        fetch (ReminderFlow.post_request ReminderFlow.TEST_WITHOUT_TIME) w
        = (inr r1, w1) ->
        JSON_parse (res_text r1) = Some j1 ->
        j1 <> VNull -> j1 <> VUndefined ->
        fetch (ReminderFlow.post_request ReminderFlow.TEST_WITH_TIME) w1
        = (inr r2, w2) ->
        JSON_parse (res_text r2) = None ->
        exit_code (ReminderFlow.script w) = 1
        /\ stderr (final (ReminderFlow.script w))
           = [[AStr (NL ++ lit "❌ ERROR:");
               AStr (non_json_message ReminderFlow.postUrl r2)]]
        /\ requests (final (ReminderFlow.script w))
           = [ReminderFlow.post_request ReminderFlow.TEST_WITHOUT_TIME;
              ReminderFlow.post_request ReminderFlow.TEST_WITH_TIME]).
Proof.
  repeat apply conj.
  - intros url o s r w' Hf Hp. split.
    + now apply note_getJson_non_json.
    + now apply reminder_getJson_non_json.
  - intros url r. unfold non_json_message. repeat split.
    + apply decimal_value_int_to_string.
    + rewrite (app_assoc _ url), (app_assoc _ NL), (app_assoc _ (lit "Status: ")).
      apply contains_here.
    + exists (lit "Non-JSON response from " ++ url ++ NL ++ lit "Status: "
              ++ int_to_string (res_status r) ++ NL ++ lit "Body:" ++ NL), [].
      rewrite app_nil_r, <- !app_assoc. reflexivity.
  - intros w r1 w1 Hf Hp. unfold NoteFlow.script.
    rewrite (note_main_verify_non_json w r1 w1 Hf Hp). repeat split; same_state.
  - intros w r1 w1 v r2 w2 Hf Hp Ht Hf2 Hp2. unfold NoteFlow.script.
    rewrite (note_main_post_non_json w r1 w1 v r2 w2 Hf Hp Ht Hf2 Hp2).
    repeat split; same_state.
  - intros w r1 w1 Hf Hp.
    destruct (reminder_main_tests w) as [intro Hmain].
    unfold bind in Hmain.
    rewrite (testReminder_non_json _ _ (mkState w [] intro []) r1 w1 Hf Hp)
      in Hmain.
    unfold ReminderFlow.script. rewrite Hmain. repeat split; same_state.
  - intros w r1 w1 j1 r2 w2 Hf Hp N1 N2 Hf2 Hp2.
    destruct (reminder_main_tests w) as [intro Hmain].
    unfold bind in Hmain.
    rewrite (testReminder_validates _ _ (mkState w [] intro []) r1 w1 j1 Hf Hp)
      in Hmain.
    rewrite (validate_reminder_reports j1 N1 N2) in Hmain.
    erewrite (testReminder_non_json _ _ _ r2 w2) in Hmain;
      [| exact Hf2 | exact Hp2].
    unfold ReminderFlow.script. rewrite Hmain. repeat split; same_state.
Qed.

Lemma non_json_reply_aborts_witness :
  exit_code
    (@NoteFlow.script Example.host
       (Example.network [Example.reply 502 Example.html_body]))
  = 1
  /\ stderr
       (final
          (@NoteFlow.script Example.host
             (Example.network [Example.reply 502 Example.html_body])))
     = [[AStr (NL ++ lit "❌ ERROR:");
         AStr (lit "Non-JSON response from https://brain-dump-py.onrender.com/verify-user?user_id=Daniel_iPhone"
               ++ NL ++ lit "Status: 502" ++ NL ++ lit "Body:" ++ NL
               ++ lit "<html>Bad Gateway</html>")]]
  /\ requests
       (final
          (@NoteFlow.script Example.host
             (Example.network [Example.reply 502 Example.html_body])))
     = [@NoteFlow.verify_request Example.host]
  /\ contains
       (non_json_message (@NoteFlow.verifyUrl Example.host)
          (mkResponse 502 Example.html_body))
       (lit "502")
  /\ contains
       (non_json_message (@NoteFlow.verifyUrl Example.host)
          (mkResponse 502 Example.html_body))
       (lit "<html>Bad Gateway</html>").
Proof.
  destruct (proj1 (proj2 (proj2 (@non_json_reply_aborts Example.host)))
              (Example.network [Example.reply 502 Example.html_body])
              (mkResponse 502 Example.html_body) (Example.network [])
              eq_refl eq_refl) as (Hexit & Herr & Hreq).
  destruct (proj1 (proj2 (@non_json_reply_aborts Example.host))
              (@NoteFlow.verifyUrl Example.host)
              (mkResponse 502 Example.html_body)) as (_ & _ & Hstatus & Hbody).
  rewrite Hexit, Herr, Hreq.
  replace (lit "502") with (int_to_string (res_status (mkResponse 502 Example.html_body)))
    by (vm_compute; reflexivity).
  replace (lit "<html>Bad Gateway</html>")
    with (res_text (mkResponse 502 Example.html_body)) at 2
    by (vm_compute; reflexivity).
  repeat split; try assumption; vm_compute; reflexivity.
Defined.

(** ** The registration short-circuit *)

Lemma get_is_not_post : lit "GET" <> lit "POST".
Proof. vm_compute. discriminate. Qed.

(** C7.  When the user-lookup reply indicates an unregistered identifier,
    that is, carries a [registration_url] to report (a truthy value, as the
    non-empty text of a link is), the run prints it and stops: the lookup is
    the only request it makes, so nothing is posted to [/brain-dump], the
    exit code is 0 and standard error is empty. *)
Theorem registration_link_short_circuits {H : Host} w r1 w1 v :
  fetch NoteFlow.verify_request w = (inr r1, w1) ->
  JSON_parse (res_text r1) = Some v ->
  truthy (get_opt v (lit "registration_url")) = true ->
  NoteFlow.script w
  = mkResult 0
      (mkState w1 [NoteFlow.verify_request] (note_short_circuit r1 v) [])
  /\ ~ In NoteFlow.post_request (requests (final (NoteFlow.script w))).
Proof.
  intros Hf Hp Ht. unfold NoteFlow.script.
  rewrite (note_main_short_circuit w r1 w1 v Hf Hp Ht).
  split; [reflexivity|]. cbn [final requests]. intros [E | []].
  apply (f_equal req_method) in E. injection E as E. now apply get_is_not_post.
Qed.

Lemma registration_link_short_circuits_witness :
  @NoteFlow.script Example.host
    (Example.network [Example.reply 200 Example.unregistered_body])
  = mkResult 0
      (mkState (Example.network []) [@NoteFlow.verify_request Example.host]
         (note_short_circuit (mkResponse 200 Example.unregistered_body)
            Example.unregistered_json)
         [])
  /\ ~ In (@NoteFlow.post_request Example.host)
         (requests
            (final
               (@NoteFlow.script Example.host
                  (Example.network
                     [Example.reply 200 Example.unregistered_body])))).
Proof.
  apply (@registration_link_short_circuits Example.host
           (Example.network [Example.reply 200 Example.unregistered_body])
           (mkResponse 200 Example.unregistered_body) (Example.network [])
           Example.unregistered_json);
    vm_compute; reflexivity.
Defined.

(** Where the short-circuit ends: a [registration_url] that is there but
    empty is no link to report, and the run goes on to post to
    [/brain-dump]. *)
Lemma empty_registration_url_goes_on :
  @JSON_parse Example.host Example.empty_url_body
  = Some Example.empty_url_json
  /\ has_property (lit "registration_url") Example.empty_url_json = true
  /\ requests
       (final
          (@NoteFlow.script Example.host
             (Example.network
                [Example.reply 200 Example.empty_url_body;
                 Example.reply 200 Example.note_body])))
     = [@NoteFlow.verify_request Example.host;
        @NoteFlow.post_request Example.host]
  /\ req_url (@NoteFlow.post_request Example.host)
     = lit "https://brain-dump-py.onrender.com/brain-dump"
  /\ req_method (@NoteFlow.post_request Example.host) = Some (lit "POST").
Proof. vm_compute. repeat split. Qed.

(** ** Validation and the state *)

(** C8.  Neither validation has hidden state: run on the same body from any
    two states (the second may be the one the first run left), it ends with
    the same outcome, the same error if it fails, and prints the same lines;
    it changes nothing but standard output: no request is made, the network
    and standard error are as before.  Nor does it change the body: with the
    response object held in a cell that every expression mentioning
    [bd.json] reads, the validation ends as it does on the value and leaves
    the content of the cell as it found it, so that validating the same
    object a second time, from the state the first validation left, gives
    the same outcome and the same lines once more. *)
Theorem validation_is_stateless {H : Host} (j : value) (s1 s2 : state) :
  (exists o lines,
     NoteFlow.validate_note_contract j s1 = (o, log_lines s1 lines)
     /\ NoteFlow.validate_note_contract j s2 = (o, log_lines s2 lines)
     /\ Cell.validate_note_contract (Cell.mkCell j s1)
        = (o, Cell.mkCell j (log_lines s1 lines))
     /\ Cell.validate_note_contract (Cell.mkCell j (log_lines s1 lines))
        = (o, Cell.mkCell j (log_lines (log_lines s1 lines) lines)))
  /\ (exists o lines,
        ReminderFlow.validate_reminder_contract j s1 = (o, log_lines s1 lines)
        /\ ReminderFlow.validate_reminder_contract j s2
           = (o, log_lines s2 lines)
        /\ Cell.validate_reminder_contract (Cell.mkCell j s1)
           = (o, Cell.mkCell j (log_lines s1 lines))
        /\ Cell.validate_reminder_contract (Cell.mkCell j (log_lines s1 lines))
           = (o, Cell.mkCell j (log_lines (log_lines s1 lines) lines))).
Proof.
  split.
  - destruct (validate_note_stateless j) as (o & lines & Hr).
    exists o, lines. rewrite !cell_validate_note, !Hr. now repeat split.
  - destruct (validate_reminder_stateless j) as (o & lines & Hr).
    exists o, lines. rewrite !cell_validate_reminder, !Hr. now repeat split.
Qed.

(** ** Replies outside the 2xx range *)

(** C9.  A reply with a status outside 200-299 and a JSON body does not
    make [getJson] throw: in both scripts it returns the status, [ok] as
    [false] and the parsed body.  [testReminder] then validates the body,
    its outcome being the outcome of the validation alone; the note script
    reaches its validation in the same way, whatever the status codes of its
    two replies, a non-2xx lookup and a non-2xx POST reply included.  [ok]
    is printed and never tested. *)
Theorem non_2xx_json_reply_is_validated {H : Host} :
  (forall url o s r w' j,
     fetch (fetch_init url o) (net s) = (inr r, w') ->
     JSON_parse (res_text r) = Some j ->
     res_ok r = false ->
     NoteFlow.getJson url o s
     = (Ret (mkFetched (res_status r) false j), sent s (fetch_init url o) w')
     /\ ReminderFlow.getJson url o s
        = (Ret (mkFetched (res_status r) false j),
           sent s (fetch_init url o) w'))
  /\ (forall text description s r w' j,
        fetch (ReminderFlow.post_request text) (net s) = (inr r, w') ->
        JSON_parse (res_text r) = Some j ->
        res_ok r = false ->
        ReminderFlow.testReminder text description s
        = ReminderFlow.validate_reminder_contract j
            (log_lines
               (sent (log_lines s (reminder_banner text description))
                  (ReminderFlow.post_request text) w')
               (reminder_reply_lines r j))
        /\ fst (ReminderFlow.testReminder text description s)
           = fst (ReminderFlow.validate_reminder_contract j s))
  /\ (forall w r1 w1 v r2 w2 j,
        fetch NoteFlow.verify_request w = (inr r1, w1) ->
        JSON_parse (res_text r1) = Some v ->
        truthy (get_opt v (lit "registration_url")) = false ->
        fetch NoteFlow.post_request w1 = (inr r2, w2) ->
        JSON_parse (res_text r2) = Some j ->
        NoteFlow.main (init w)
        = NoteFlow.validate_note_contract j
            (mkState w2 [NoteFlow.verify_request; NoteFlow.post_request]
               (note_preamble r1 v r2 j) [])
        /\ fst (NoteFlow.main (init w))
           = fst (NoteFlow.validate_note_contract j (init w))).
Proof.
  repeat apply conj.
  - intros url o s r w' j Hf Hp Hok. rewrite <- Hok. split.
    + now apply note_getJson_parsed.
    + now apply reminder_getJson_parsed.
  - intros text description s r w' j Hf Hp _.
    rewrite (testReminder_validates text description s r w' j Hf Hp).
    split; [reflexivity|].
    destruct (validate_reminder_stateless j) as (o & lines & Hr).
    now rewrite !Hr.
  - intros w r1 w1 v r2 w2 j Hf Hp Ht Hf2 Hp2.
    rewrite (note_main_validates w r1 w1 v r2 w2 j Hf Hp Ht Hf2 Hp2).
    split; [reflexivity|].
    destruct (validate_note_stateless j) as (o & lines & Hr).
    now rewrite !Hr.
Qed.

Lemma non_2xx_json_reply_is_validated_witness :
  fst (@ReminderFlow.testReminder Example.host ReminderFlow.TEST_WITH_TIME
         (lit "With time → SUCCESS")
         (init
            (Example.network [Example.reply 500 Example.late_success_body])))
  = fst (@ReminderFlow.validate_reminder_contract Example.host
           Example.late_success_json
           (init
              (Example.network [Example.reply 500 Example.late_success_body])))
  /\ fst (@NoteFlow.main Example.host
            (init
               (Example.network
                  [Example.reply 200 Example.registered_body;
                   Example.reply 500 Example.note_body])))
     = fst (@NoteFlow.validate_note_contract Example.host Example.note_json
              (init
                 (Example.network
                    [Example.reply 200 Example.registered_body;
                     Example.reply 500 Example.note_body]))).
Proof.
  split.
  - apply (proj1 (proj2 (@non_2xx_json_reply_is_validated Example.host))
             ReminderFlow.TEST_WITH_TIME (lit "With time → SUCCESS")
             (init
                (Example.network [Example.reply 500 Example.late_success_body]))
             (mkResponse 500 Example.late_success_body) (Example.network [])
             Example.late_success_json);
      vm_compute; reflexivity.
  - apply (proj2 (proj2 (@non_2xx_json_reply_is_validated Example.host))
             (Example.network
                [Example.reply 200 Example.registered_body;
                 Example.reply 500 Example.note_body])
             (mkResponse 200 Example.registered_body)
             (Example.network [Example.reply 500 Example.note_body])
             Example.registered_json (mkResponse 500 Example.note_body)
             (Example.network []) Example.note_json);
      vm_compute; reflexivity.
Defined.

(** * Further properties *)

(** ** The request [getJson] sends *)

Lemma jsstr_eqb_sym (a b : jsstr) : jsstr_eqb a b = jsstr_eqb b a.
Proof.
  destruct (jsstr_eqb a b) eqn:E1, (jsstr_eqb b a) eqn:E2; try reflexivity.
  - apply jsstr_eqb_eq in E1. subst. now rewrite jsstr_eqb_refl in E2.
  - apply jsstr_eqb_eq in E2. subst. now rewrite jsstr_eqb_refl in E1.
Qed.

Lemma find_key_assign {V : Type} (o : list (jsstr * V)) (k k' : jsstr) (v : V) :
  find_key k (assign o k' v)
  = if jsstr_eqb k k' then Some v else find_key k o.
Proof.
  induction o as [|[k0 v0] o IH]; simpl; [reflexivity|].
  destruct (jsstr_eqb k' k0) eqn:E0; simpl.
  - apply jsstr_eqb_eq in E0. subst k0. now destruct (jsstr_eqb k k').
  - rewrite IH. destruct (jsstr_eqb k k0) eqn:E1; [| reflexivity].
    apply jsstr_eqb_eq in E1. subst k0.
    now rewrite jsstr_eqb_sym, E0.
Qed.

Lemma find_key_app {V : Type} (k : jsstr) (a b : list (jsstr * V)) :
  find_key k (a ++ b)
  = match find_key k a with Some v => Some v | None => find_key k b end.
Proof.
  induction a as [|[k0 v0] a IH]; simpl; [reflexivity|].
  now destruct (jsstr_eqb k k0).
Qed.

(** A key of the spread takes its value from the last entry of [extra] that
    names it, and from [o] when none does. *)
Lemma find_key_spread {V : Type} (k : jsstr) (extra o : list (jsstr * V)) :
  find_key k (spread o extra)
  = match find_key k (rev extra) with
    | Some v => Some v
    | None => find_key k o
    end.
Proof.
  unfold spread. revert o.
  induction extra as [|[k0 v0] extra IH]; intros o; simpl; [reflexivity|].
  rewrite IH, find_key_app, find_key_assign. simpl.
  destruct (find_key k (rev extra)); [reflexivity|].
  now destruct (jsstr_eqb k k0).
Qed.

Lemma find_key_In {V : Type} (k : jsstr) (o : list (jsstr * V)) (v : V) :
  find_key k o = Some v -> In (k, v) o.
Proof.
  induction o as [|[k0 v0] o IH]; simpl; [discriminate|].
  destruct (jsstr_eqb k k0) eqn:E.
  - apply jsstr_eqb_eq in E. intros [= ->]. left. now subst.
  - intros Hf. right. now apply IH.
Qed.

Lemma In_find_key {V : Type} (k : jsstr) (o : list (jsstr * V)) (v : V) :
  In (k, v) o -> find_key k o <> None.
Proof.
  induction o as [|[k0 v0] o IH]; simpl; [tauto|].
  intros [[= -> ->] | Hin].
  - now rewrite jsstr_eqb_refl.
  - destruct (jsstr_eqb k k0); [discriminate | now apply IH].
Qed.

Lemma unique_key_value {V : Type} (k : jsstr) (o : list (jsstr * V)) (v v' : V) :
  NoDup (map fst o) -> In (k, v) o -> In (k, v') o -> v = v'.
Proof.
  induction o as [|[k0 v0] o IH]; simpl; [tauto|].
  intros Hnd. inversion Hnd as [|? ? Hnot Hnd']; subst.
  intros [[= -> ->] | H1] [[= <-] | H2]; try reflexivity.
  - exfalso. apply Hnot. now apply (in_map fst) in H2.
  - exfalso. apply Hnot. now apply (in_map fst) in H1.
  - now apply IH.
Qed.

Lemma sample_headers_distinct :
  NoDup
    (map fst
       (caller_headers
          (mkOptions (Some (lit "GET")) (Some Sample.own_headers) None))).
Proof.
  vm_compute.
  apply NoDup_cons; [intros [F | []]; discriminate F|].
  apply NoDup_cons; [intros [] | apply NoDup_nil].
Defined.

(** X1.  The headers [getJson] sends are [Content-Type: application/json]
    overridden and extended by the caller's: a name the caller's headers do
    not hold has its default (the JSON content type, or nothing), and a
    header the caller passes, its names being distinct as in any object, is
    sent with the caller's value, [Content-Type] included. *)
Theorem getJson_headers (url : jsstr) (o : options) (k : jsstr) :
  (find_key k (caller_headers o) = None ->
   find_key k (req_headers (fetch_init url o))
   = if jsstr_eqb k (lit "Content-Type") then Some (lit "application/json")
     else None)
  /\ (forall v,
        NoDup (map fst (caller_headers o)) ->
        find_key k (caller_headers o) = Some v ->
        find_key k (req_headers (fetch_init url o)) = Some v).
Proof.
  unfold fetch_init, caller_headers. cbn [req_headers].
  set (hs := match opt_headers o with Some h => h | None => [] end).
  rewrite find_key_spread. split.
  - intros Hnone.
    destruct (find_key k (rev hs)) as [v|] eqn:E; [| simpl; now destruct jsstr_eqb].
    apply find_key_In, in_rev, In_find_key in E. contradiction.
  - intros v Hnd Hv. apply find_key_In in Hv.
    destruct (find_key k (rev hs)) as [v'|] eqn:E.
    + apply find_key_In, in_rev in E. f_equal.
      now apply (unique_key_value k hs).
    + apply in_rev, In_find_key in Hv. contradiction.
Qed.

Lemma getJson_headers_witness :
  find_key (lit "Content-Type")
    (req_headers
       (fetch_init (lit "https://example.org/")
          (mkOptions (Some (lit "GET")) (Some Sample.own_headers) None)))
  = Some (lit "text/plain")
  /\ find_key (lit "Authorization")
       (req_headers
          (fetch_init (lit "https://example.org/")
             (mkOptions (Some (lit "GET")) (Some Sample.own_headers) None)))
     = Some (lit "Bearer t")
  /\ find_key (lit "Content-Type")
       (req_headers
          (fetch_init (lit "https://example.org/")
             (mkOptions (Some (lit "POST")) None None)))
     = Some (lit "application/json").
Proof.
  split; [| split].
  - apply (proj2 (getJson_headers (lit "https://example.org/")
                    (mkOptions (Some (lit "GET")) (Some Sample.own_headers) None)
                    (lit "Content-Type")));
      [apply sample_headers_distinct | vm_compute; reflexivity].
  - apply (proj2 (getJson_headers (lit "https://example.org/")
                    (mkOptions (Some (lit "GET")) (Some Sample.own_headers) None)
                    (lit "Authorization")));
      [apply sample_headers_distinct | vm_compute; reflexivity].
  - rewrite (proj1 (getJson_headers (lit "https://example.org/")
                      (mkOptions (Some (lit "POST")) None None)
                      (lit "Content-Type")));
      vm_compute; reflexivity.
Defined.

Section Request_facts.
Context {H : Host}.

Lemma note_getJson_state url o s :
  snd (NoteFlow.getJson url o s)
  = sent s (fetch_init url o) (snd (fetch (fetch_init url o) (net s))).
Proof.
  unfold NoteFlow.getJson, bind, do_fetch.
  destruct (fetch (fetch_init url o) (net s)) as [[e|r] w']; [same_state|].
  js_eval. destruct (JSON_parse (res_text r)); same_state.
Qed.

Lemma reminder_getJson_state url o s :
  snd (ReminderFlow.getJson url o s)
  = sent s (fetch_init url o) (snd (fetch (fetch_init url o) (net s))).
Proof.
  unfold ReminderFlow.getJson, bind, do_fetch.
  destruct (fetch (fetch_init url o) (net s)) as [[e|r] w']; [same_state|].
  js_eval. destruct (JSON_parse (res_text r)); same_state.
Qed.

Lemma note_getJson_rejected url o s e w' :
  fetch (fetch_init url o) (net s) = (inl e, w') ->
  NoteFlow.getJson url o s = (Throw e, sent s (fetch_init url o) w').
Proof.
  intros Hf. unfold NoteFlow.getJson, bind, do_fetch. rewrite Hf. same_state.
Qed.

Lemma reminder_getJson_rejected url o s e w' :
  fetch (fetch_init url o) (net s) = (inl e, w') ->
  ReminderFlow.getJson url o s = (Throw e, sent s (fetch_init url o) w').
Proof.
  intros Hf. unfold ReminderFlow.getJson, bind, do_fetch. rewrite Hf.
  same_state.
Qed.

End Request_facts.

(** X2.  Whatever the network does, a call to [getJson] (in either script)
    makes exactly one request, the one built from its arguments, leaves the
    network as [fetch] left it and prints nothing, on standard output or
    standard error; this holds when it returns and when it throws. *)
Theorem getJson_one_request {H : Host} (url : jsstr) (o : options) (s : state) :
  (requests (snd (NoteFlow.getJson url o s)) = requests s ++ [fetch_init url o]
   /\ net (snd (NoteFlow.getJson url o s))
      = snd (fetch (fetch_init url o) (net s))
   /\ stdout (snd (NoteFlow.getJson url o s)) = stdout s
   /\ stderr (snd (NoteFlow.getJson url o s)) = stderr s)
  /\ (requests (snd (ReminderFlow.getJson url o s))
      = requests s ++ [fetch_init url o]
      /\ net (snd (ReminderFlow.getJson url o s))
         = snd (fetch (fetch_init url o) (net s))
      /\ stdout (snd (ReminderFlow.getJson url o s)) = stdout s
      /\ stderr (snd (ReminderFlow.getJson url o s)) = stderr s).
Proof.
  rewrite note_getJson_state, reminder_getJson_state.
  repeat split.
Qed.

(** ** Runs of the two scripts *)

Section More_run_facts.
Context {H : Host}.

Lemma note_main_verify_rejected w e w1 :
  fetch NoteFlow.verify_request w = (inl e, w1) ->
  NoteFlow.main (init w)
  = (Throw e,
     mkState w1 [NoteFlow.verify_request]
       [[AStr (lit "=== 1) VERIFY USER ===")]] []).
Proof.
  intros Hf. unfold NoteFlow.verify_request in *.
  unfold NoteFlow.main. js_eval. rewrite Hf. same_state.
Qed.

Lemma note_main_post_rejected w r1 w1 v e w2 :
  fetch NoteFlow.verify_request w = (inr r1, w1) ->
  JSON_parse (res_text r1) = Some v ->
  truthy (get_opt v (lit "registration_url")) = false ->
  fetch NoteFlow.post_request w1 = (inl e, w2) ->
  NoteFlow.main (init w)
  = (Throw e,
     mkState w2 [NoteFlow.verify_request; NoteFlow.post_request]
       [[AStr (lit "=== 1) VERIFY USER ===")];
        [AStr (lit "HTTP:"); AInt (res_status r1); AStr (lit "OK:");
         ABool (res_ok r1)];
        [AStr (lit "JSON:"); AVal v];
        [AStr (NL ++ lit "=== 2) BRAIN DUMP POST ===")]] []).
Proof.
  intros Hf Hp Ht Hf2.
  unfold NoteFlow.verify_request, NoteFlow.post_request in *.
  unfold NoteFlow.main. js_eval. rewrite Hf. js_eval. rewrite Hp. js_eval.
  rewrite Ht, Hf2. same_state.
Qed.

Lemma testReminder_rejected text description s e w' :
  fetch (ReminderFlow.post_request text) (net s) = (inl e, w') ->
  ReminderFlow.testReminder text description s
  = (Throw e,
     sent (log_lines s (reminder_banner text description))
       (ReminderFlow.post_request text) w').
Proof.
  intros Hf. unfold ReminderFlow.post_request in *.
  destruct s as [w0 sent0 out0 err0]. cbn [net] in Hf.
  unfold ReminderFlow.testReminder. js_eval. rewrite Hf. same_state.
Qed.

(** Whatever happens, [testReminder] makes its one request and leaves
    standard error alone. *)
Lemma testReminder_requests text description s :
  requests (snd (ReminderFlow.testReminder text description s))
  = requests s ++ [ReminderFlow.post_request text].
Proof.
  destruct (fetch (ReminderFlow.post_request text) (net s)) as [[e|r] w']
    eqn:Hf.
  - now rewrite (testReminder_rejected _ description _ _ _ Hf).
  - destruct (JSON_parse (res_text r)) as [j|] eqn:Hp.
    + rewrite (testReminder_validates _ description _ _ _ _ Hf Hp).
      destruct (validate_reminder_stateless j) as (o & lines & Hr).
      now rewrite Hr.
    + now rewrite (testReminder_non_json _ description _ _ _ Hf Hp).
Qed.

Lemma reminder_main_from_intro w :
  ReminderFlow.main (init w)
  = (ReminderFlow.testReminder ReminderFlow.TEST_WITHOUT_TIME WITHOUT_TIME_TEST;;
     ReminderFlow.testReminder ReminderFlow.TEST_WITH_TIME WITH_TIME_TEST)
      (mkState w [] reminder_intro []).
Proof.
  unfold ReminderFlow.main, reminder_intro, WITHOUT_TIME_TEST, WITH_TIME_TEST.
  unfold bind at 1 2 3. unfold console_log, init.
  cbn [net requests stdout stderr app]. reflexivity.
Qed.

End More_run_facts.

(** X3.  A call to [fetch] that rejects ends the run at once: the rejection
    is what the script catches, its message is the one line on standard
    error, the exit code is 1 and no request follows the failed one.  This
    holds for both requests of the note script and, in the reminder script,
    for the request of the first test and for the request of the second when
    the first test has returned. *)
Theorem rejected_fetch_aborts {H : Host} :
  (forall w e w1,
     fetch NoteFlow.verify_request w = (inl e, w1) ->
     exit_code (NoteFlow.script w) = 1
     /\ stderr (final (NoteFlow.script w)) = [error_line e]
     /\ requests (final (NoteFlow.script w)) = [NoteFlow.verify_request])
  /\ (forall w r1 w1 v e w2,
        fetch NoteFlow.verify_request w = (inr r1, w1) ->
        JSON_parse (res_text r1) = Some v ->
        truthy (get_opt v (lit "registration_url")) = false ->
        fetch NoteFlow.post_request w1 = (inl e, w2) ->
        exit_code (NoteFlow.script w) = 1
        /\ stderr (final (NoteFlow.script w)) = [error_line e]
        /\ requests (final (NoteFlow.script w))
           = [NoteFlow.verify_request; NoteFlow.post_request])
  /\ (forall w e w1,
        fetch (ReminderFlow.post_request ReminderFlow.TEST_WITHOUT_TIME) w
        = (inl e, w1) ->
        exit_code (ReminderFlow.script w) = 1
        /\ stderr (final (ReminderFlow.script w)) = [error_line e]
        /\ requests (final (ReminderFlow.script w))
           = [ReminderFlow.post_request ReminderFlow.TEST_WITHOUT_TIME])
  /\ (forall w s1 e w2,
        ReminderFlow.testReminder ReminderFlow.TEST_WITHOUT_TIME
          WITHOUT_TIME_TEST (mkState w [] reminder_intro [])
        = (Ret tt, s1) ->
        fetch (ReminderFlow.post_request ReminderFlow.TEST_WITH_TIME) (net s1)
        = (inl e, w2) ->
        exit_code (ReminderFlow.script w) = 1
        /\ stderr (final (ReminderFlow.script w)) = [error_line e]
        /\ requests (final (ReminderFlow.script w))
           = [ReminderFlow.post_request ReminderFlow.TEST_WITHOUT_TIME;
              ReminderFlow.post_request ReminderFlow.TEST_WITH_TIME]).
Proof.
  repeat apply conj.
  - intros w e w1 Hf. unfold NoteFlow.script.
    rewrite (note_main_verify_rejected w e w1 Hf). repeat split; same_state.
  - intros w r1 w1 v e w2 Hf Hp Ht Hf2. unfold NoteFlow.script.
    rewrite (note_main_post_rejected w r1 w1 v e w2 Hf Hp Ht Hf2).
    repeat split; same_state.
  - intros w e w1 Hf. unfold ReminderFlow.script.
    rewrite reminder_main_from_intro. unfold bind.
    rewrite (testReminder_rejected _ _ (mkState w [] reminder_intro []) e w1 Hf).
    repeat split; same_state.
  - intros w s1 e w2 Hfirst Hf.
    pose proof (testReminder_requests ReminderFlow.TEST_WITHOUT_TIME
                  WITHOUT_TIME_TEST (mkState w [] reminder_intro [])) as Hrq.
    pose proof (reminder_main_keeps_stderr (init w)) as Herr.
    unfold ReminderFlow.script in *. rewrite reminder_main_from_intro in *.
    unfold bind in *. rewrite Hfirst in *. cbn [snd requests app] in Hrq.
    rewrite (testReminder_rejected _ _ s1 e w2 Hf) in *.
    cbn [snd fst stderr sent log_lines init] in Herr.
    unfold console_error, sent, log_lines.
    cbn [exit_code final snd requests stderr].
    rewrite Hrq, Herr. repeat split.
Qed.

Lemma rejected_fetch_aborts_witness :
  exit_code
    (@NoteFlow.script Example.host
       (Example.network
          [Example.reply 200 Example.registered_body; Sample.unreachable]))
  = 1
  /\ stderr
       (final
          (@NoteFlow.script Example.host
             (Example.network
                [Example.reply 200 Example.registered_body;
                 Sample.unreachable])))
     = [error_line (TypeError (lit "fetch failed"))]
  /\ requests
       (final
          (@NoteFlow.script Example.host
             (Example.network
                [Example.reply 200 Example.registered_body;
                 Sample.unreachable])))
     = [@NoteFlow.verify_request Example.host;
        @NoteFlow.post_request Example.host].
Proof.
  apply (proj1 (proj2 (@rejected_fetch_aborts Example.host))
           (Example.network
              [Example.reply 200 Example.registered_body; Sample.unreachable])
           (mkResponse 200 Example.registered_body)
           (Example.network [Sample.unreachable])
           Example.registered_json (TypeError (lit "fetch failed"))
           (Example.network []));
    vm_compute; reflexivity.
Defined.

(** ** The reminder validation and the reminder script *)

(** X9.  The reminder validation raises on exactly two bodies, [null] and
    [undefined], where reading [intent] is a [TypeError]; on every other
    body, whatever its fields, it returns, having printed
    [reminder_report].  It never raises a failed assertion. *)
Theorem reminder_validation_raises_on_null_only {H : Host}
  (j : value) (s : state) :
  ((exists e, fst (ReminderFlow.validate_reminder_contract j s) = Throw e)
   <-> j = VNull \/ j = VUndefined)
  /\ (forall e,
        fst (ReminderFlow.validate_reminder_contract j s) = Throw e ->
        exists m, e = TypeError m)
  /\ (j <> VNull -> j <> VUndefined ->
      ReminderFlow.validate_reminder_contract j s
      = (Ret tt, log_lines s (reminder_report j))).
Proof.
  assert (Hnull : forall j', j' = VNull \/ j' = VUndefined ->
            exists m, ReminderFlow.validate_reminder_contract j' s
                      = (Throw (TypeError m), log_lines s [reminder_header])).
  { intros j' [-> | ->]; eexists;
      unfold ReminderFlow.validate_reminder_contract; same_state. }
  assert (Hdec : (j = VNull \/ j = VUndefined)
                 \/ (j <> VNull /\ j <> VUndefined)).
  { destruct j; try (right; split; discriminate); left; auto. }
  split; [| split].
  - split.
    + intros [e He]. destruct Hdec as [Hn | [N1 N2]]; [exact Hn|].
      rewrite (validate_reminder_reports j N1 N2 s) in He. discriminate He.
    + intros Hn. destruct (Hnull j Hn) as [m Hm]. eexists. now rewrite Hm.
  - intros e He. destruct Hdec as [Hn | [N1 N2]].
    + destruct (Hnull j Hn) as [m Hm]. rewrite Hm in He.
      injection He as <-. now exists m.
    + rewrite (validate_reminder_reports j N1 N2 s) in He. discriminate He.
  - intros N1 N2. apply (validate_reminder_reports j N1 N2 s).
Qed.

(** X10.  A reminder whose [status] is neither ["NEEDS_CLARIFICATION"] nor
    ["SUCCESS"] (an error status, a missing status) is accepted in silence:
    the validation prints the six fields, with their check marks, and
    nothing about what the Shortcut should do, and returns. *)
Theorem reminder_other_status_is_accepted {H : Host} (j : value) (s : state) :
  strict_eq_str (get j (lit "intent")) (lit "reminder") = true ->
  strict_eq_str (get j (lit "status")) (lit "NEEDS_CLARIFICATION") = false ->
  strict_eq_str (get j (lit "status")) (lit "SUCCESS") = false ->
  ReminderFlow.validate_reminder_contract j s
  = (Ret tt, log_lines s (reminder_header :: reminder_fields j)).
Proof.
  intros Hi Hc Hs.
  assert (N1 : j <> VNull) by (intros ->; discriminate Hi).
  assert (N2 : j <> VUndefined) by (intros ->; discriminate Hi).
  rewrite (validate_reminder_reports j N1 N2 s).
  unfold reminder_report. rewrite Hi, Hc, Hs. now rewrite app_nil_r.
Qed.

Lemma reminder_other_status_is_accepted_witness :
  @ReminderFlow.validate_reminder_contract Example.host
    Sample.failed_status_json (init (Example.network []))
  = (Ret tt,
     log_lines (init (Example.network []))
       (reminder_header :: reminder_fields Sample.failed_status_json)).
Proof.
  apply (@reminder_other_status_is_accepted Example.host);
    vm_compute; reflexivity.
Defined.

(** X11.  The exit code of the reminder script says nothing about the
    contract: when both replies are JSON other than [null], whatever their
    status codes and fields, the script ends with exit code 0 and nothing on
    standard error, having made its two requests in order (the text without
    a time first) and printed, for each test, the banner, the reply and the
    report of the validation. *)
Theorem reminder_script_completes {H : Host} w r1 w1 j1 r2 w2 j2 :
  fetch (ReminderFlow.post_request ReminderFlow.TEST_WITHOUT_TIME) w
  = (inr r1, w1) ->
  JSON_parse (res_text r1) = Some j1 ->
  j1 <> VNull -> j1 <> VUndefined ->
  fetch (ReminderFlow.post_request ReminderFlow.TEST_WITH_TIME) w1
  = (inr r2, w2) ->
  JSON_parse (res_text r2) = Some j2 ->
  j2 <> VNull -> j2 <> VUndefined ->
  ReminderFlow.script w
  = mkResult 0
      (mkState w2
         [ReminderFlow.post_request ReminderFlow.TEST_WITHOUT_TIME;
          ReminderFlow.post_request ReminderFlow.TEST_WITH_TIME]
         (reminder_intro
          ++ reminder_banner ReminderFlow.TEST_WITHOUT_TIME WITHOUT_TIME_TEST
          ++ reminder_reply_lines r1 j1 ++ reminder_report j1
          ++ reminder_banner ReminderFlow.TEST_WITH_TIME WITH_TIME_TEST
          ++ reminder_reply_lines r2 j2 ++ reminder_report j2)
         []).
Proof.
  intros Hf1 Hp1 N1 N1' Hf2 Hp2 N2 N2'.
  unfold ReminderFlow.script. rewrite reminder_main_from_intro. unfold bind.
  rewrite (testReminder_validates _ _ (mkState w [] reminder_intro [])
             r1 w1 j1 Hf1 Hp1).
  rewrite (validate_reminder_reports j1 N1 N1').
  erewrite testReminder_validates; [| exact Hf2 | exact Hp2].
  rewrite (validate_reminder_reports j2 N2 N2').
  f_equal. unfold log_lines, sent. cbn [net requests stdout stderr app].
  f_equal. now rewrite <- !app_assoc.
Qed.

Lemma reminder_script_completes_witness :
  @ReminderFlow.script Example.host
    (Example.network
       [Example.reply 200 Example.bare_clarification_body;
        Example.reply 500 Example.other_body])
  = mkResult 0
      (mkState (Example.network [])
         [@ReminderFlow.post_request Example.host ReminderFlow.TEST_WITHOUT_TIME;
          @ReminderFlow.post_request Example.host ReminderFlow.TEST_WITH_TIME]
         (reminder_intro
          ++ reminder_banner ReminderFlow.TEST_WITHOUT_TIME WITHOUT_TIME_TEST
          ++ @reminder_reply_lines Example.host
               (mkResponse 200 Example.bare_clarification_body)
               Example.bare_clarification_json
          ++ reminder_report Example.bare_clarification_json
          ++ reminder_banner ReminderFlow.TEST_WITH_TIME WITH_TIME_TEST
          ++ @reminder_reply_lines Example.host
               (mkResponse 500 Example.other_body) Example.other_json
          ++ reminder_report Example.other_json)
         []).
Proof.
  apply (@reminder_script_completes Example.host
           (Example.network
              [Example.reply 200 Example.bare_clarification_body;
               Example.reply 500 Example.other_body])
           (mkResponse 200 Example.bare_clarification_body)
           (Example.network [Example.reply 500 Example.other_body])
           Example.bare_clarification_json
           (mkResponse 500 Example.other_body) (Example.network [])
           Example.other_json);
    first [vm_compute; reflexivity | discriminate].
Defined.

(** X12.  A first reply whose body is the JSON [null] ends the reminder
    script before its second test: the [TypeError] of reading [intent] is
    caught at the top, its message is the one line on standard error, the
    exit code is 1, and the second request is never made. *)
Theorem reminder_null_reply_skips_second_test {H : Host} w r1 w1 :
  fetch (ReminderFlow.post_request ReminderFlow.TEST_WITHOUT_TIME) w
  = (inr r1, w1) ->
  JSON_parse (res_text r1) = Some VNull ->
  exists m,
    ReminderFlow.script w
    = mkResult 1
        (mkState w1
           [ReminderFlow.post_request ReminderFlow.TEST_WITHOUT_TIME]
           (reminder_intro
            ++ reminder_banner ReminderFlow.TEST_WITHOUT_TIME WITHOUT_TIME_TEST
            ++ reminder_reply_lines r1 VNull ++ [reminder_header])
           [error_line (TypeError m)]).
Proof.
  intros Hf Hp. eexists.
  unfold ReminderFlow.script. rewrite reminder_main_from_intro. unfold bind.
  rewrite (testReminder_validates _ _ (mkState w [] reminder_intro [])
             r1 w1 VNull Hf Hp).
  unfold ReminderFlow.validate_reminder_contract. same_state.
Qed.

Lemma reminder_null_reply_skips_second_test_witness :
  exists m,
    @ReminderFlow.script Example.host
      (Example.network
         [Example.reply 200 Example.null_body;
          Example.reply 200 Example.late_success_body])
    = mkResult 1
        (mkState
           (Example.network [Example.reply 200 Example.late_success_body])
           [@ReminderFlow.post_request Example.host
              ReminderFlow.TEST_WITHOUT_TIME]
           (reminder_intro
            ++ reminder_banner ReminderFlow.TEST_WITHOUT_TIME WITHOUT_TIME_TEST
            ++ @reminder_reply_lines Example.host
                 (mkResponse 200 Example.null_body) VNull
            ++ [reminder_header])
           [error_line (TypeError m)]).
Proof.
  apply (@reminder_null_reply_skips_second_test Example.host
           (Example.network
              [Example.reply 200 Example.null_body;
               Example.reply 200 Example.late_success_body])
           (mkResponse 200 Example.null_body)
           (Example.network [Example.reply 200 Example.late_success_body]));
    vm_compute; reflexivity.
Defined.

(** X13.  On every network the reminder script makes one request or two,
    never more and never none: the POST of the text without a time, then,
    exactly when the first test has returned, the POST of the text with a
    time. *)
Theorem reminder_script_requests {H : Host} (w : world) :
  (requests (final (ReminderFlow.script w))
   = [ReminderFlow.post_request ReminderFlow.TEST_WITHOUT_TIME]
   /\ exists e,
        fst (ReminderFlow.testReminder ReminderFlow.TEST_WITHOUT_TIME
               WITHOUT_TIME_TEST (mkState w [] reminder_intro []))
        = Throw e)
  \/ (requests (final (ReminderFlow.script w))
      = [ReminderFlow.post_request ReminderFlow.TEST_WITHOUT_TIME;
         ReminderFlow.post_request ReminderFlow.TEST_WITH_TIME]
      /\ fst (ReminderFlow.testReminder ReminderFlow.TEST_WITHOUT_TIME
                WITHOUT_TIME_TEST (mkState w [] reminder_intro []))
         = Ret tt).
Proof.
  pose proof (testReminder_requests ReminderFlow.TEST_WITHOUT_TIME
                WITHOUT_TIME_TEST (mkState w [] reminder_intro [])) as Hrq.
  unfold ReminderFlow.script. rewrite reminder_main_from_intro. unfold bind.
  destruct (ReminderFlow.testReminder ReminderFlow.TEST_WITHOUT_TIME
              WITHOUT_TIME_TEST (mkState w [] reminder_intro []))
    as [[[]|e] s1]; cbn [snd fst requests app] in Hrq.
  - right. split; [| reflexivity].
    pose proof (testReminder_requests ReminderFlow.TEST_WITH_TIME
                  WITH_TIME_TEST s1) as Hrq2.
    destruct (ReminderFlow.testReminder ReminderFlow.TEST_WITH_TIME
                WITH_TIME_TEST s1) as [[u|e] s2];
      cbn [snd] in Hrq2; unfold console_error;
      cbn [final snd requests]; now rewrite Hrq2, Hrq.
  - left. split; [| now exists e].
    unfold console_error. cbn [final snd requests]. exact Hrq.
Qed.

(** ** The note validation and the note script *)

(** X4.  The note validation fails on the first of its steps that does not
    hold, in the order of the source: the body is an object, it has
    [status], it has [intent], it has [message], the message can be
    converted to text for printing (line 75), and for a note, [status] is
    ["SUCCESS"], [message] is a string, [message] is not blank.  Its outcome
    is the error of that step, a failed assertion or, for the conversion,
    the [TypeError], or a return when none fails; an array, which passes the
    object test, fails on the missing [status]. *)
Theorem note_validation_first_failure {H : Host} (j : value) (s : state) :
  fst (NoteFlow.validate_note_contract j s)
  = match note_verdict j with
    | None => Ret tt
    | Some e => Throw e
    end.
Proof.
  unfold note_verdict, NoteFlow.validate_note_contract.
  unfold bind at 1. unfold console_log at 1. unfold bind at 1.
  rewrite !object_check.
  destruct j; cbn [negb]; try (js_eval; reflexivity).
  js_eval.
  destruct (has_property (lit "status") (VObj props)); [| reflexivity].
  destruct (has_property (lit "intent") (VObj props)); [| reflexivity].
  destruct (has_property (lit "message") (VObj props)); [| reflexivity].
  destruct (ToString (get (VObj props) (lit "message"))); [| reflexivity].
  destruct (strict_eq_str (get (VObj props) (lit "intent")) (lit "note"));
    [| reflexivity].
  destruct (strict_eq_str (get (VObj props) (lit "status")) (lit "SUCCESS"));
    [| reflexivity].
  rewrite string_check.
  destruct (get (VObj props) (lit "message")) as [| | | |m| |];
    try reflexivity.
  destruct (0 <? N.of_nat (List.length (trim m))); reflexivity.
Qed.

(** X5.  For a note with status ["SUCCESS"] and a string [message], the
    validation passes exactly when the message has a code unit that is not
    white space (space, tab, line break, no-break space and the other
    characters [trim] strips); an empty or blank message fails it. *)
Theorem note_message_must_not_be_blank {H : Host}
  (j : value) (m : jsstr) (s : state) :
  strict_eq_str (get j (lit "intent")) (lit "note") = true ->
  strict_eq_str (get j (lit "status")) (lit "SUCCESS") = true ->
  get j (lit "message") = VStr m ->
  (fst (NoteFlow.validate_note_contract j s) = Ret tt
   <-> exists c, In c m /\ is_white_space c = false)
  /\ ((forall c, In c m -> is_white_space c = true) ->
      fst (NoteFlow.validate_note_contract j s)
      = Throw (Error (lit "ASSERT FAILED: "
                      ++ lit "For note, message must not be empty"))).
Proof.
  intros Hi Hs Hm. rewrite <- trim_nonempty. split; [split|].
  - intros Hr Ht.
    destruct (validate_note_raises j Hi) as (e & l & Hd).
    { intros [_ (m' & E & Hn)]. rewrite Hm in E. injection E as <-.
      now apply Hn. }
    rewrite Hd in Hr. discriminate Hr.
  - intros Ht. rewrite (validate_note_passes j Hi Hs); [reflexivity|].
    now exists m.
  - intros Hall. apply trim_nil in Hall.
    pose proof (get_has_property _ _ _ Hm) as P3.
    apply strict_eq_str_true in Hi, Hs.
    pose proof (get_has_property _ _ _ Hi) as P2.
    pose proof (get_has_property _ _ _ Hs) as P1.
    destruct (has_property_object _ _ P1) as [props ->].
    unfold NoteFlow.validate_note_contract.
    unfold bind at 1. unfold console_log at 1. unfold bind at 1.
    rewrite object_check. js_eval.
    rewrite P1, P2, P3, Hi, Hs, Hm, string_check.
    cbn [strict_eq_str ToString primitive_text].
    rewrite !jsstr_eqb_refl, Hall. reflexivity.
Qed.

Lemma note_message_must_not_be_blank_witness :
  fst (@NoteFlow.validate_note_contract Example.host Sample.blank_note_json
         (init (Example.network [])))
  = Throw (Error (lit "ASSERT FAILED: "
                  ++ lit "For note, message must not be empty")).
Proof.
  apply (proj2 (@note_message_must_not_be_blank Example.host
                  Sample.blank_note_json [32; 9; 160; 10]
                  (init (Example.network []))
                  eq_refl eq_refl eq_refl)).
  intros c Hin. vm_compute in Hin.
  repeat (destruct Hin as [<- | Hin]; [reflexivity|]). destruct Hin.
Defined.

Section Note_run_facts.
Context {H : Host}.

(** Once the lookup has answered without a truthy [registration_url], the
    note script makes its second request, whatever follows. *)
Lemma note_requests_after_lookup w r1 w1 v :
  fetch NoteFlow.verify_request w = (inr r1, w1) ->
  JSON_parse (res_text r1) = Some v ->
  truthy (get_opt v (lit "registration_url")) = false ->
  requests (final (NoteFlow.script w))
  = [NoteFlow.verify_request; NoteFlow.post_request].
Proof.
  intros Hf Hp Ht. unfold NoteFlow.script.
  destruct (fetch NoteFlow.post_request w1) as [[e|r2] w2] eqn:Hf2.
  - now rewrite (note_main_post_rejected w r1 w1 v e w2 Hf Hp Ht Hf2).
  - destruct (JSON_parse (res_text r2)) as [j|] eqn:Hp2.
    + rewrite (note_main_validates w r1 w1 v r2 w2 j Hf Hp Ht Hf2 Hp2).
      destruct (validate_note_stateless j) as ([[]|e] & lines & Hr);
        now rewrite Hr.
    + now rewrite (note_main_post_non_json w r1 w1 v r2 w2 Hf Hp Ht Hf2 Hp2).
Qed.

Lemma verify_is_not_post : NoteFlow.verify_request <> NoteFlow.post_request.
Proof.
  intros E. apply (f_equal req_method) in E. injection E as E.
  revert E. vm_compute. discriminate.
Qed.

End Note_run_facts.

(** X6.  The note script succeeds when the lookup answers without a truthy
    [registration_url] and the POST answers a note with status ["SUCCESS"]
    and a message that is not blank: it makes its two requests, prints the
    fields and the confirmation as its last line, leaves standard error
    empty and ends with exit code 0. *)
Theorem note_script_succeeds {H : Host} w r1 w1 v r2 w2 j :
  fetch NoteFlow.verify_request w = (inr r1, w1) ->
  JSON_parse (res_text r1) = Some v ->
  truthy (get_opt v (lit "registration_url")) = false ->
  fetch NoteFlow.post_request w1 = (inr r2, w2) ->
  JSON_parse (res_text r2) = Some j ->
  strict_eq_str (get j (lit "intent")) (lit "note") = true ->
  strict_eq_str (get j (lit "status")) (lit "SUCCESS") = true ->
  nonempty_message (get j (lit "message")) ->
  NoteFlow.script w
  = mkResult 0
      (mkState w2 [NoteFlow.verify_request; NoteFlow.post_request]
         (note_preamble r1 v r2 j ++ note_fields j ++ [note_ok_line]) []).
Proof.
  intros Hf Hp Ht Hf2 Hp2 Hi Hs Hm. unfold NoteFlow.script.
  rewrite (note_main_validates w r1 w1 v r2 w2 j Hf Hp Ht Hf2 Hp2).
  now rewrite (validate_note_passes j Hi Hs Hm).
Qed.

Lemma note_script_succeeds_witness :
  @NoteFlow.script Example.host
    (Example.network
       [Example.reply 200 Example.registered_body;
        Example.reply 200 Example.note_body])
  = mkResult 0
      (mkState (Example.network [])
         [@NoteFlow.verify_request Example.host;
          @NoteFlow.post_request Example.host]
         (note_preamble (mkResponse 200 Example.registered_body)
            Example.registered_json (mkResponse 200 Example.note_body)
            Example.note_json
          ++ @note_fields Example.host Example.note_json ++ [note_ok_line])
         []).
Proof.
  apply (@note_script_succeeds Example.host
           (Example.network
              [Example.reply 200 Example.registered_body;
               Example.reply 200 Example.note_body])
           (mkResponse 200 Example.registered_body)
           (Example.network [Example.reply 200 Example.note_body])
           Example.registered_json (mkResponse 200 Example.note_body)
           (Example.network []) Example.note_json);
    try (vm_compute; reflexivity).
  exists (lit "buy milk"). split; [reflexivity | vm_compute; discriminate].
Defined.

(** X7.  When the lookup has answered with JSON, the note script posts to
    [/brain-dump] exactly when [registration_url] is not truthy.  A lookup
    body that is not an object ([null], a number, a text, an array) has no
    such field, and, the read being [verify.json?.registration_url], it
    raises nothing: the run goes on to the POST. *)
Theorem note_posts_unless_registration_link {H : Host} w r1 w1 v :
  fetch NoteFlow.verify_request w = (inr r1, w1) ->
  JSON_parse (res_text r1) = Some v ->
  (In NoteFlow.post_request (requests (final (NoteFlow.script w)))
   <-> truthy (get_opt v (lit "registration_url")) = false)
  /\ ((forall props, v <> VObj props) ->
      requests (final (NoteFlow.script w))
      = [NoteFlow.verify_request; NoteFlow.post_request]).
Proof.
  intros Hf Hp. split.
  - destruct (truthy (get_opt v (lit "registration_url"))) eqn:Ht.
    + unfold NoteFlow.script.
      rewrite (note_main_short_circuit w r1 w1 v Hf Hp Ht).
      cbn [final requests]. split; [| discriminate].
      intros [E | []]. now apply verify_is_not_post in E.
    + rewrite (note_requests_after_lookup w r1 w1 v Hf Hp Ht).
      split; [reflexivity|]. intros _. right. now left.
  - intros Hobj. apply (note_requests_after_lookup w r1 w1 v Hf Hp).
    destruct v; try reflexivity. now destruct (Hobj props).
Qed.

Lemma note_posts_unless_registration_link_witness :
  requests
    (final
       (@NoteFlow.script Example.host
          (Example.network
             [Example.reply 200 Example.null_body;
              Example.reply 200 Example.note_body])))
  = [@NoteFlow.verify_request Example.host;
     @NoteFlow.post_request Example.host].
Proof.
  apply (proj2 (@note_posts_unless_registration_link Example.host
                  (Example.network
                     [Example.reply 200 Example.null_body;
                      Example.reply 200 Example.note_body])
                  (mkResponse 200 Example.null_body)
                  (Example.network [Example.reply 200 Example.note_body])
                  VNull eq_refl eq_refl)).
  intros props. discriminate.
Defined.

(** X8.  On every network the note script makes one request or two, never
    more and never none: the first is always the user lookup, and the only
    request that can follow it is the POST to [/brain-dump]. *)
Theorem note_script_requests {H : Host} (w : world) :
  requests (final (NoteFlow.script w)) = [NoteFlow.verify_request]
  \/ requests (final (NoteFlow.script w))
     = [NoteFlow.verify_request; NoteFlow.post_request].
Proof.
  destruct (fetch NoteFlow.verify_request w) as [[e|r1] w1] eqn:Hf.
  - left. unfold NoteFlow.script.
    now rewrite (note_main_verify_rejected w e w1 Hf).
  - destruct (JSON_parse (res_text r1)) as [v|] eqn:Hp.
    + destruct (truthy (get_opt v (lit "registration_url"))) eqn:Ht.
      * left. unfold NoteFlow.script.
        now rewrite (note_main_short_circuit w r1 w1 v Hf Hp Ht).
      * right. apply (note_requests_after_lookup w r1 w1 v Hf Hp Ht).
    + left. unfold NoteFlow.script.
      now rewrite (note_main_verify_non_json w r1 w1 Hf Hp).
Qed.

(** ** What is printed before a validation *)

(** X14.  A reply that parses is printed before it is validated, so it is
    on standard output whatever the validation then does, a failed assertion
    or a [TypeError] included: the note script has printed both replies
    (status, [ok] and parsed body) when its validation starts, and
    [testReminder] has printed its banner, the status, [ok] and the body
    re-serialised with an indentation of 2. *)
Theorem reply_is_printed_before_validation {H : Host} :
  (forall w r1 w1 v r2 w2 j,
     fetch NoteFlow.verify_request w = (inr r1, w1) ->
     JSON_parse (res_text r1) = Some v ->
     truthy (get_opt v (lit "registration_url")) = false ->
     fetch NoteFlow.post_request w1 = (inr r2, w2) ->
     JSON_parse (res_text r2) = Some j ->
     exists rest,
       stdout (final (NoteFlow.script w))
       = note_preamble r1 v r2 j ++ note_header :: rest)
  /\ (forall text description s r w' j,
        fetch (ReminderFlow.post_request text) (net s) = (inr r, w') ->
        JSON_parse (res_text r) = Some j ->
        exists rest,
          stdout (snd (ReminderFlow.testReminder text description s))
          = stdout s ++ reminder_banner text description
            ++ reminder_reply_lines r j ++ reminder_header :: rest).
Proof.
  split.
  - intros w r1 w1 v r2 w2 j Hf Hp Ht Hf2 Hp2. unfold NoteFlow.script.
    rewrite (note_main_validates w r1 w1 v r2 w2 j Hf Hp Ht Hf2 Hp2).
    unfold NoteFlow.validate_note_contract.
    unfold bind at 1. unfold console_log at 1.
    cbn [net requests stdout stderr].
    match goal with
    | |- context [bind ?m ?k ?st] =>
        assert (Hst : stateless (bind m k))
          by (stateless_steps);
        destruct Hst as (o & lines & Hr); rewrite (Hr st)
    end.
    exists lines.
    destruct o; unfold console_error, log_lines;
      cbn [final snd stdout]; now rewrite <- app_assoc.
  - intros text description s r w' j Hf Hp.
    rewrite (testReminder_validates text description s r w' j Hf Hp).
    unfold ReminderFlow.validate_reminder_contract.
    unfold bind at 1. unfold console_log at 1.
    cbn [net requests stdout stderr].
    match goal with
    | |- context [bind ?m ?k ?st] =>
        assert (Hst : stateless (bind m k))
          by (stateless_steps);
        destruct Hst as (o & lines & Hr); rewrite (Hr st)
    end.
    exists lines. unfold log_lines, sent. cbn [snd stdout].
    now rewrite <- !app_assoc.
Qed.

Lemma reply_is_printed_before_validation_witness :
  exists rest,
    stdout
      (snd (@ReminderFlow.testReminder Example.host
              ReminderFlow.TEST_WITHOUT_TIME WITHOUT_TIME_TEST
              (init (Example.network [Example.reply 200 Example.null_body]))))
    = stdout (init (Example.network [Example.reply 200 Example.null_body]))
      ++ reminder_banner ReminderFlow.TEST_WITHOUT_TIME WITHOUT_TIME_TEST
      ++ @reminder_reply_lines Example.host
           (mkResponse 200 Example.null_body) VNull
      ++ reminder_header :: rest.
Proof.
  apply (proj2 (@reply_is_printed_before_validation Example.host)
           ReminderFlow.TEST_WITHOUT_TIME WITHOUT_TIME_TEST
           (init (Example.network [Example.reply 200 Example.null_body]))
           (mkResponse 200 Example.null_body) (Example.network []) VNull);
    vm_compute; reflexivity.
Defined.
